(** * pyBLS.BlsData: a shallow embedding of [src/pyBLS/BlsData.py]

    The class fetches Bureau of Labor Statistics series, merges them into one
    pandas frame keyed by (year, period), derives a date index from the period
    code of the first row and resolves a location name for each series
    identifier.

    Python exceptions are values of [exn]; every function that can raise
    returns a [result].  The pandas primitives whose behaviour belongs to the
    library and not to this repository (numeric coercion, printing and
    ordering of numbers, date parsing) are the fields of the class
    [PandasOps]. *)

From stdpp Require Import gmap strings list fin_maps sorting.
From Stdlib Require Import ZArith Ascii String.

Local Open Scope string_scope.
Local Open Scope list_scope.
Local Open Scope Z_scope.

(** ** Exceptions and results *)

Inductive exn : Type :=
  | KeyError (key : string)
  | IndexError
  | TypeError
  | ValueError
  | AttributeError
  | UnboundLocalError
  | MergeError
  | FileNotFoundError.

Inductive result (A : Type) : Type :=
  | OK (a : A)
  | Raise (e : exn).
Arguments OK {A} a.
Arguments Raise {A} e.

Definition result_bind {A B : Type} (f : A → result B) (m : result A) : result B :=
  match m with
  | OK a => f a
  | Raise e => Raise e
  end.

#[global] Instance result_mbind : MBind result := @result_bind.
#[global] Instance result_mret : MRet result := @OK.
#[global] Instance result_fmap : FMap result :=
  λ A B (f : A → B), result_bind (λ a, OK (f a)).

(** [for x in l: ...] with a body that may raise: the first exception stops
    the loop. *)
Fixpoint traverse {A B : Type} (f : A → result B) (l : list A) : result (list B) :=
  match l with
  | [] => OK []
  | x :: l' =>
      match f x with
      | OK y =>
          match traverse f l' with
          | OK ys => OK (y :: ys)
          | Raise e => Raise e
          end
      | Raise e => Raise e
      end
  end.

(** ** Timestamps

    A [pandas.Timestamp] at midnight, by its calendar fields. *)

Record Timestamp : Type := mkTs { ts_year : Z; ts_month : Z; ts_day : Z }.

#[global] Instance Timestamp_eq_dec : EqDecision Timestamp.
Proof. solve_decision. Defined.

Definition ts_compare (a b : Timestamp) : comparison :=
  match ts_year a ?= ts_year b with
  | Eq =>
      match ts_month a ?= ts_month b with
      | Eq => ts_day a ?= ts_day b
      | c => c
      end
  | c => c
  end.

Definition ts_leb (a b : Timestamp) : bool :=
  match ts_compare a b with
  | Gt => false
  | _ => true
  end.

Definition digit_char (n : Z) : ascii :=
  ascii_of_nat (Z.to_nat (48 + n mod 10)).

(** The last [k] decimal digits of [n], most significant first. *)
Fixpoint zero_padded (k : nat) (n : Z) : string :=
  match k with
  | O => ""
  | S k' => zero_padded k' (n / 10) +:+ String (digit_char n) ""
  end.

(** [str(ts)] for a timestamp at midnight: [YYYY-MM-DD 00:00:00]. *)
Definition ts_str (t : Timestamp) : string :=
  zero_padded 4 (ts_year t) +:+ "-" +:+ zero_padded 2 (ts_month t) +:+ "-"
  +:+ zero_padded 2 (ts_day t) +:+ " 00:00:00".

(** ** The pandas primitives left to the library

    [num] is the type of the numbers a frame holds (int64 or float64 values,
    never NaN, which is a cell of its own); [to_numeric] is [pd.to_numeric] on
    one string, [None] when the string does not parse; [num_str] is Python's
    [str] on a number; [num_leb] is [<=]; [to_datetime fmt s] is
    [pd.to_datetime] on one string, with the [format=] argument when [fmt] is
    [Some], [None] when the string does not parse. *)

Class PandasOps : Type := {
  num : Type;
  num_eq_dec :: EqDecision num;
  to_numeric : string → option num;
  num_str : num → string;
  num_leb : num → num → bool;
  to_datetime : option string → string → option Timestamp;
}.

Section Frames.
Context `{PandasOps}.

(** ** Cells, rows and frames

    A row is a map from column labels to cells. *)

Inductive cell : Type :=
  | NaN
  | Str (s : string)
  | Num (v : num)
  | Time (t : Timestamp).

#[global] Instance cell_eq_dec : EqDecision cell.
Proof. solve_decision. Defined.

(** A frame with the default index 0 .. n-1: row [i] has label [i]. *)
Record DataFrame : Type := mkDF {
  columns : list string;
  rows : list (gmap string cell);
}.

(** A frame after [set_index]: every row carries its index label. *)
Record IndexedFrame : Type := mkIF {
  index_name : string;
  icolumns : list string;
  irows : list (cell * gmap string cell);
}.

Definition index (t : IndexedFrame) : list cell := fst <$> irows t.

Definition cell_at (r : gmap string cell) (c : string) : cell :=
  default NaN (r !! c).

(** ** The raw data: one record per series *)

Record observation : Type := mkObs {
  obs_year : cell;
  obs_period : cell;
  obs_value : cell;
}.

Record bls_series : Type := mkSeries {
  seriesID : string;
  data : list observation;
}.

(** ** [DataFrame.merge(right, on=['year','period'], how='outer')] *)

Definition on_keys : list string := ["year"; "period"].

Definition key_of (r : gmap string cell) : option cell * option cell :=
  (r !! "year", r !! "period").

(** The keys of a list in the order of their first appearance. *)
Definition first_seen {A : Type} `{EqDecision A} (l : list A) : list A :=
  reverse (remove_dups (reverse l)).

Definition nan_row (cols : list string) : gmap string cell :=
  list_to_map ((λ c, (c, NaN)) <$> cols).

Definition suffixed (overlap : list string) (sfx : string) (c : string) : string :=
  if decide (c ∈ overlap) then c +:+ sfx else c.

Definition key_cells (r : gmap string cell) : gmap string cell :=
  filter (λ kv, kv.1 ∈ on_keys) r.

Definition value_cells (r : gmap string cell) : gmap string cell :=
  delete "year" (delete "period" r).

Definition non_key (cols : list string) : list string :=
  filter (λ c, c ∉ on_keys) cols.

(** One row of the result, from the left row and the right row that share a
    key, either of which may be missing. *)
Definition joined_row (lcols rcols : list string) (lname rname : string → string)
    (lo ro : option (gmap string cell)) : gmap string cell :=
  let keys :=
    match lo, ro with
    | None, Some r => key_cells r
    | _, _ => ∅
    end in
  let lpart :=
    match lo with
    | Some l => kmap lname l
    | None => nan_row (lname <$> lcols)
    end in
  let rpart :=
    match ro with
    | Some r => kmap rname (value_cells r)
    | None => nan_row (rname <$> non_key rcols)
    end in
  keys ∪ lpart ∪ rpart.

(** The rows of one key: the left rows alone, the right rows alone, or every
    pairing of a left row with a right row. *)
Definition joined_group (lcols rcols : list string) (lname rname : string → string)
    (lrows rrows : list (gmap string cell)) (k : option cell * option cell)
    : list (gmap string cell) :=
  let ls := filter (λ r, key_of r = k) lrows in
  let rs := filter (λ r, key_of r = k) rrows in
  match ls, rs with
  | _, [] => (λ l, joined_row lcols rcols lname rname (Some l) None) <$> ls
  | [], _ => (λ r, joined_row lcols rcols lname rname None (Some r)) <$> rs
  | _, _ =>
      l ← ls; (λ r, joined_row lcols rcols lname rname (Some l) (Some r)) <$> rs
  end.

(** The outer merge on (year, period).  A key column missing on either side
    is a [KeyError].  A value column present on both sides takes the suffix
    [_x] on the left and [_y] on the right; labels that collide after that are
    a [MergeError].  Rows come grouped by key, the keys of the left frame
    first, then those found only in the right frame (pandas before 2.2; later
    versions sort the groups, which changes the order of the rows and nothing
    else). *)
Definition merge (left right : DataFrame) : result DataFrame :=
  match filter (λ c, c ∉ columns left ∨ c ∉ columns right) on_keys with
  | c :: _ => Raise (KeyError c)
  | [] =>
      let overlap := filter (λ c, c ∈ columns right) (non_key (columns left)) in
      let lname := suffixed overlap "_x" in
      let rname := suffixed overlap "_y" in
      let cols := (lname <$> columns left) ++ (rname <$> non_key (columns right)) in
      if decide (NoDup cols) then
        let keys := first_seen ((key_of <$> rows left) ++ (key_of <$> rows right)) in
        OK (mkDF cols
              (k ← keys;
               joined_group (columns left) (columns right) lname rname
                 (rows left) (rows right) k))
      else Raise MergeError
  end.

(** ** [_construct_df]: the per-series frame and the merge loop *)

(** [pd.to_numeric] on one cell of the value column. *)
Definition numeric_cell (c : cell) : result cell :=
  match c with
  | NaN => OK NaN
  | Str s =>
      match to_numeric s with
      | Some v => OK (Num v)
      | None => Raise ValueError
      end
  | Num v => OK (Num v)
  | Time _ => Raise TypeError
  end.

Definition series_row (id : string) (o : observation) (v : cell) : gmap string cell :=
  <[id := v]> (<["period" := obs_period o]> (<["year" := obs_year o]> ∅)).

(** Lines 88-91: the frame of one series, its value column coerced and
    renamed to the series identifier.  [pd.DataFrame([])] has no columns, so
    selecting from it is a [KeyError]; an identifier equal to a key label
    leaves two columns of that label, which the merge that follows refuses. *)
Definition series_frame (s : bls_series) : result DataFrame :=
  match data s with
  | [] => Raise (KeyError "year")
  | _ =>
      vals ← traverse (λ o, numeric_cell (obs_value o)) (data s);
      if decide (seriesID s ∈ on_keys) then Raise ValueError
      else
        OK (mkDF ["year"; "period"; seriesID s]
              (zip_with (series_row (seriesID s)) (data s) vals))
  end.

(** Lines 87-92: the loop over the raw data. *)
Fixpoint merge_loop (df : DataFrame) (raw : list bls_series) : result DataFrame :=
  match raw with
  | [] => OK df
  | s :: rest =>
      series_df ← series_frame s;
      df' ← merge df series_df;
      merge_loop df' rest
  end.

(** Lines 83-92: the table handed to [organize_df]. *)
Definition merged_frame (raw : list bls_series) : result DataFrame :=
  merge_loop (mkDF ["year"; "period"] []) raw.

(** ** [organize_df] *)

(** [df.loc[0]['period'][0]]: the label 0 is missing from an empty frame, the
    column may be missing, and only a non-empty string has a first
    character. *)
Definition first_period_char (df : DataFrame) : result ascii :=
  match rows df with
  | [] => Raise (KeyError "0")
  | r :: _ =>
      if decide ("period" ∈ columns df) then
        match cell_at r "period" with
        | Str (String c _) => OK c
        | Str EmptyString => Raise IndexError
        | _ => Raise TypeError
        end
      else Raise (KeyError "period")
  end.

(** [s.replace(old, new)] for a pattern of one character. *)
Fixpoint replace_char (old : ascii) (new : string) (s : string) : string :=
  match s with
  | EmptyString => EmptyString
  | String c s' =>
      if decide (c = old) then new +:+ replace_char old new s'
      else String c (replace_char old new s')
  end.

(** [Series.str.replace(old, new)] on one cell: what is not a string becomes
    NaN. *)
Definition str_replace (old : ascii) (new : string) (c : cell) : cell :=
  match c with
  | Str s => Str (replace_char old new s)
  | _ => NaN
  end.

(** Python's [str] on one cell, as [Series.map(str)] applies it. *)
Definition py_str (c : cell) : string :=
  match c with
  | NaN => "nan"
  | Str s => s
  | Num v => num_str v
  | Time t => ts_str t
  end.

(** [pd.to_datetime] on one cell of a column of strings.  Numbers, which
    pandas reads as offsets from the epoch, do not occur in the columns this
    program passes. *)
Definition to_datetime_cell (fmt : option string) (c : cell) : result cell :=
  match c with
  | Str s =>
      match to_datetime fmt s with
      | Some t => OK (Time t)
      | None => Raise ValueError
      end
  | NaN => OK NaN
  | Time t => OK (Time t)
  | Num _ => Raise TypeError
  end.

(** [df[c] = f(row)], row by row; the right-hand side is evaluated on every
    row before the column is stored, so one failure leaves no frame. *)
Definition assign (c : string) (f : gmap string cell → result cell) (df : DataFrame)
    : result DataFrame :=
  rows' ← traverse (λ r, v ← f r; OK (<[c := v]> r)) (rows df);
  OK (mkDF (if decide (c ∈ columns df) then columns df else columns df ++ [c]) rows').

(** [df[c]] as an operand: the column must exist. *)
Definition require_column (c : string) (df : DataFrame) : result unit :=
  if decide (c ∈ columns df) then OK tt else Raise (KeyError c).

(** Lines 104-105: the period codes without their zeros, and the strings
    [<year>-<period>]. *)
Definition quarterly_strings (df : DataFrame) : result DataFrame :=
  _ ← require_column "period" df;
  df ← assign "period" (λ r, OK (str_replace "0" "" (cell_at r "period"))) df;
  _ ← require_column "year" df;
  assign "date"
    (λ r, OK (Str (py_str (cell_at r "year") +:+ "-" +:+ py_str (cell_at r "period"))))
    df.

(** Lines 104-106. *)
Definition quarterly (df : DataFrame) : result DataFrame :=
  df ← quarterly_strings df;
  assign "date" (λ r, to_datetime_cell None (cell_at r "date")) df.

(** Lines 110-111: the period codes without the letter M, and the strings
    [<period>-<year>]. *)
Definition monthly_strings (df : DataFrame) : result DataFrame :=
  _ ← require_column "period" df;
  df ← assign "period" (λ r, OK (str_replace "M" "" (cell_at r "period"))) df;
  _ ← require_column "year" df;
  assign "date"
    (λ r, OK (Str (py_str (cell_at r "period") +:+ "-" +:+ py_str (cell_at r "year"))))
    df.

(** Lines 110-112. *)
Definition monthly (df : DataFrame) : result DataFrame :=
  df ← monthly_strings df;
  assign "date" (λ r, to_datetime_cell (Some "%m-%Y") (cell_at r "date")) df.

(** Line 116: [df.rename(columns={old: new}, errors='raise')].  With a column
    [new] already there the frame would hold that label twice and
    [set_index] on it is refused. *)
Definition rename_column (old new : string) (df : DataFrame) : result DataFrame :=
  if decide (old ∈ columns df) then
    if decide (new ∈ columns df) then Raise ValueError
    else
      OK (mkDF ((λ c, if decide (c = old) then new else c) <$> columns df)
            ((λ r, <[new := cell_at r old]> (delete old r)) <$> rows df))
  else Raise (KeyError old).

(** Line 119: [df.set_index(c)]. *)
Definition set_index (c : string) (df : DataFrame) : result IndexedFrame :=
  if decide (c ∈ columns df) then
    OK (mkIF c (filter (λ c', c' ≠ c) (columns df))
          ((λ r, (cell_at r c, delete c r)) <$> rows df))
  else Raise (KeyError c).

(** The order of index labels: strings by code point, numbers by [num_leb],
    timestamps by date, missing labels last.  Labels of different kinds are
    never compared by [sort_index] below; ranking the kinds keeps the relation
    total. *)
Definition kind_rank (c : cell) : Z :=
  match c with
  | Str _ => 0
  | Num _ => 1
  | Time _ => 2
  | NaN => 3
  end.

Definition cell_leb (a b : cell) : bool :=
  match a, b with
  | Str x, Str y => String.leb x y
  | Num x, Num y => num_leb x y
  | Time x, Time y => ts_leb x y
  | _, _ => kind_rank a <=? kind_rank b
  end.

Definition cell_le (a b : cell) : Prop := cell_leb a b = true.

Definition label_le (a b : cell * gmap string cell) : Prop := cell_le a.1 b.1.

#[global] Instance label_le_dec : RelDecision label_le.
Proof. intros a b. unfold label_le, cell_le. apply _. Defined.

(** The labels that are present are all strings, all numbers or all
    timestamps. *)
Definition same_kind (labels : list cell) : bool :=
  match filter (λ c, c ≠ NaN) labels with
  | [] => true
  | c :: cs => forallb (λ c', kind_rank c' =? kind_rank c) cs
  end.

(** Line 120: [df.sort_index()].  Comparing labels of different kinds is a
    [TypeError].  The order among rows of equal label is the one of a merge
    sort; nothing below depends on it. *)
Definition sort_index (t : IndexedFrame) : result IndexedFrame :=
  if same_kind (index t) then
    OK (mkIF (index_name t) (icolumns t) (merge_sort label_le (irows t)))
  else Raise TypeError.

(** Line 123: [df.drop(columns=names, errors='ignore')]: a label that is not
    a column is passed over. *)
Definition drop_columns (names : list string) (t : IndexedFrame) : IndexedFrame :=
  mkIF (index_name t) (filter (λ c, c ∉ names) (icolumns t))
    ((λ lr, (lr.1, foldr delete lr.2 names)) <$> irows t).

Definition organize_df (df : DataFrame) : result IndexedFrame :=
  (* quarterly data *)
  c ← first_period_char df;
  df ← (if decide (c = "Q"%char) then quarterly df else OK df);
  (* monthly data *)
  c ← first_period_char df;
  df ← (if decide (c = "M"%char) then monthly df else OK df);
  (* annual data *)
  c ← first_period_char df;
  df ← (if decide (c = "A"%char) then rename_column "year" "date" df else OK df);
  (* change index and sort *)
  t ← set_index "date" df;
  t ← sort_index t;
  (* drop extra cols *)
  OK (drop_columns ["period"; "year"] t).

Definition _construct_df (raw : list bls_series) : result IndexedFrame :=
  df ← merged_frame raw;
  organize_df df.

(** ** Vocabulary of the statements below *)

(** The (year, period) key of an observation, as [key_of] reads it from the
    row made of that observation. *)
Definition obs_key (o : observation) : option cell * option cell :=
  (Some (obs_year o), Some (obs_period o)).

(** The string [organize_df] parses for a row of a quarterly table. *)
Definition quarter_string (r : gmap string cell) : string :=
  py_str (cell_at r "year") +:+ "-" +:+ py_str (str_replace "0" "" (cell_at r "period")).

(** The string [organize_df] parses for a row of a monthly table. *)
Definition month_string (r : gmap string cell) : string :=
  py_str (str_replace "M" "" (cell_at r "period")) +:+ "-" +:+ py_str (cell_at r "year").

(** The quarterly string in the words of the specification: the period code
    loses the zero that leads its suffix, and nothing else. *)
Definition strip_leading_zero (period : string) : string :=
  match period with
  | String c (String "0" rest) => String c rest
  | _ => period
  end.

Definition spec_quarter_string (r : gmap string cell) : string :=
  py_str (cell_at r "year") +:+ "-" +:+
  match cell_at r "period" with
  | Str p => strip_leading_zero p
  | _ => py_str NaN
  end.

(** The row of a list of rows at a key, when there is one. *)
Definition find_key (l : list (gmap string cell)) (k : option cell * option cell)
    : option (gmap string cell) :=
  head (filter (λ r, key_of r = k) l).

(** [joined_row] when no column takes a suffix. *)
Definition plain_join (lcols rcols : list string) (lo ro : option (gmap string cell))
    : gmap string cell :=
  match lo, ro with
  | Some l, Some r => l ∪ value_cells r
  | Some l, None => l ∪ nan_row (non_key rcols)
  | None, Some r => key_cells r ∪ nan_row lcols ∪ value_cells r
  | None, None => nan_row lcols ∪ nan_row (non_key rcols)
  end.

(** What the column of a series holds in a row: the coerced value of the
    observation with the key of the row, and NaN when the series has no such
    observation. *)
Definition series_cells (s : bls_series) (r : gmap string cell) : Prop :=
  (∀ o, o ∈ data s → obs_key o = key_of r →
        ∃ v, numeric_cell (obs_value o) = OK v ∧ r !! seriesID s = Some v) ∧
  (key_of r ∉ obs_key <$> data s → r !! seriesID s = Some NaN).

(** The table built from the series [done]: a column for each, a row for
    each key, every row with a cell in every column. *)
Definition table_inv (done : list bls_series) (df : DataFrame) : Prop :=
  columns df = "year" :: "period" :: (seriesID <$> done) ∧
  NoDup (columns df) ∧
  NoDup (key_of <$> rows df) ∧
  (∀ k, k ∈ key_of <$> rows df ↔ ∃ s, s ∈ done ∧ k ∈ obs_key <$> data s) ∧
  (∀ r c, r ∈ rows df → is_Some (r !! c) ↔ c ∈ columns df) ∧
  (∀ r s, r ∈ rows df → s ∈ done → series_cells s r).

(** The [date] column of a frame, which [set_index] turns into the index. *)
Definition date_column (df : DataFrame) : list cell :=
  (λ r, cell_at r "date") <$> rows df.

(** The columns of a frame once [df['date'] = ...] has run. *)
Definition with_date (cols : list string) : list string :=
  if decide ("date" ∈ cols) then cols else cols ++ ["date"].

(** The row of a quarterly table before its date string is parsed. *)
Definition quarter_row (r : gmap string cell) : gmap string cell :=
  <["date" := Str (quarter_string r)]>
    (<["period" := str_replace "0" "" (cell_at r "period")]> r).

(** The row of a monthly table before its date string is parsed. *)
Definition month_row (r : gmap string cell) : gmap string cell :=
  <["date" := Str (month_string r)]>
    (<["period" := str_replace "M" "" (cell_at r "period")]> r).

(** A one-row table with a year, a period code and the cells [others]. *)
Definition single_row (year : cell) (period : string) (others : gmap string cell)
    : gmap string cell :=
  <["year" := year]> (<["period" := Str period]> others).

End Frames.

(** ** [get_location]

    The two reference tables are loaded by the package's [__init__] module
    from packaged CSV files; here they are maps from an area code to the
    display name of that row ([area_title], [area_name]). *)

Section Locations.
Variable qcew_area_codes_df : gmap string string.
Variable oes_area_codes_df : gmap string string.

Definition is_upper (c : ascii) : bool :=
  let n := nat_of_ascii c in (65 <=? n)%nat && (n <=? 90)%nat.

(** [\d], on identifiers and dates written in ASCII. *)
Definition is_digit (c : ascii) : bool :=
  let n := nat_of_ascii c in (48 <=? n)%nat && (n <=? 57)%nat.

(** A character class written between brackets: any of the listed
    characters, the bar included. *)
Fixpoint one_of (chars : string) (c : ascii) : bool :=
  match chars with
  | EmptyString => false
  | String d chars' => if decide (c = d) then true else one_of chars' c
  end.

(** [series[0:2]]. *)
Definition prefix2 (series : string) : string := substring 0 2 series.

(** [re.match('[EN|LA]', s)]: one character of the class at the start. *)
Definition match_EN_LA_class (s : string) : bool :=
  match s with
  | String c _ => one_of "EN|LA" c
  | EmptyString => false
  end.

(** [re.match('OE', s)]. *)
Definition match_OE (s : string) : bool :=
  match s with
  | String "O" (String "E" _) => true
  | _ => false
  end.

(** A sequence of character classes matched at the start of [s]: the matched
    text and the rest. *)
Fixpoint match_classes (classes : list (ascii → bool)) (s : string)
    : option (string * string) :=
  match classes with
  | [] => Some (EmptyString, s)
  | p :: classes' =>
      match s with
      | String c s' =>
          if p c then
            match match_classes classes' s' with
            | Some (m, rest) => Some (String c m, rest)
            | None => None
            end
          else None
      | EmptyString => None
      end
  end.

(** [[A-Z]*] at the start of [s], greedy: what follows the letters. *)
Fixpoint skip_upper (s : string) : string :=
  match s with
  | String c s' => if is_upper c then skip_upper s' else s
  | EmptyString => EmptyString
  end.

(** [re.search('^[A-Z]{3}([\d|U][\d|S]\d\d\d)', series)], group 1. *)
Definition search_EN (series : string) : option string :=
  match match_classes [is_upper; is_upper; is_upper] series with
  | Some (_, rest) =>
      fst <$> match_classes
                [(λ c, is_digit c || one_of "|U" c);
                 (λ c, is_digit c || one_of "|S" c);
                 is_digit; is_digit; is_digit] rest
  | None => None
  end.

(** [re.search('^[A-Z]{5}(\d\d\d\d\d)', series)], group 1. *)
Definition search_LA (series : string) : option string :=
  match match_classes [is_upper; is_upper; is_upper; is_upper; is_upper] series with
  | Some (_, rest) =>
      fst <$> match_classes [is_digit; is_digit; is_digit; is_digit; is_digit] rest
  | None => None
  end.

(** [re.search('^[A-Z]*(\d\d\d\d\d\d\d)', series)], group 1.  Giving back
    letters cannot help the match: a letter is not a digit. *)
Definition search_OE (series : string) : option string :=
  fst <$> match_classes
            [is_digit; is_digit; is_digit; is_digit; is_digit; is_digit; is_digit]
            (skip_upper series).

(** [.group(1)] on the result of a search: [None] has no such attribute. *)
Definition group1 (m : option string) : result string :=
  match m with
  | Some g => OK g
  | None => Raise AttributeError
  end.

(** [table.loc[area_code][column]]. *)
Definition loc_name (table : gmap string string) (area_code : string) : result string :=
  match table !! area_code with
  | Some name => OK name
  | None => Raise (KeyError area_code)
  end.

(** The local variables of [get_location] that live across iterations:
    [area_code], unbound until its first assignment, and the dictionary. *)
Record loc_state : Type := mkLoc {
  area_code : option string;
  series_id_locations : gmap string string;
}.

(** Lines 170-178: the body of the loop for one identifier. *)
Definition locate (st : loc_state) (series : string) : result loc_state :=
  st ← (if match_EN_LA_class (prefix2 series) then
          ac ← (if decide (prefix2 series = "EN") then
                  Some <$> group1 (search_EN series)
                else OK (area_code st));
          ac ← (if decide (prefix2 series = "LA") then
                  Some <$> group1 (search_LA series)
                else OK ac);
          match ac with
          | None => Raise UnboundLocalError
          | Some code =>
              name ← loc_name qcew_area_codes_df code;
              OK (mkLoc (Some code) (<[series := name]> (series_id_locations st)))
          end
        else OK st);
  if match_OE (prefix2 series) then
    code ← group1 (search_OE series);
    name ← loc_name oes_area_codes_df code;
    OK (mkLoc (Some code) (<[series := name]> (series_id_locations st)))
  else OK st.

Fixpoint locate_all (st : loc_state) (ids : list string) : result loc_state :=
  match ids with
  | [] => OK st
  | series :: ids' =>
      st' ← locate st series;
      locate_all st' ids'
  end.

(** [series_id_list] is [None] when the caller gave no identifiers; iterating
    over [None] is a [TypeError]. *)
Definition get_location (series_id_list : option (list string))
    : result (gmap string string) :=
  match series_id_list with
  | None => Raise TypeError
  | Some ids => series_id_locations <$> locate_all (mkLoc None ∅) ids
  end.

End Locations.

(** ** The class [BlsData] *)

Section BlsDataClass.
Context `{PandasOps}.
Variable qcew_area_codes_df : gmap string string.
Variable oes_area_codes_df : gmap string string.

(** [requests.post(BLS_URL, ...).json()['Results']['series']] for a list of
    identifiers and a range of years: the answer of the remote service. *)
Variable bls_api :
  option (list string) → option string → option string → result (list bls_series).

(** The JSON documents on disk, by path, each as the value [json.load]
    returns for it. *)
Definition file_system : Type := gmap string (list bls_series).

Record BlsData : Type := mkBlsData {
  series_id_list : option (list string);
  start_year : option string;
  end_year : option string;
  raw_data : list bls_series;
  df : IndexedFrame;
  locations : gmap string string;
}.

(** Python's truth value of an argument that is [None] or a list. *)
Definition truthy {A : Type} (x : option (list A)) : bool :=
  match x with
  | Some (_ :: _) => true
  | _ => false
  end.

Definition _request_bls_data (series_id_list : option (list string))
    (start_year end_year : option string) : result (list bls_series) :=
  bls_api series_id_list start_year end_year.

(** [def _read_bls_file(self)]: the method takes no argument besides [self];
    [args] are the positional arguments of a call, and a call that passes any
    is a [TypeError] raised before the body runs. *)
Definition _read_bls_file {A : Type} (fs : gmap string (list bls_series)) (args : list A)
    : result (list bls_series) :=
  match args with
  | [] =>
      match fs !! "raw_data3_3.json" with
      | Some data => OK data
      | None => Raise FileNotFoundError
      end
  | _ :: _ => Raise TypeError
  end.

(** [write_to_bls_file(self, raw_data, file_name)]: the file opened is the one
    named by the literal ["file_name"], and what is written is
    [self.raw_data]. *)
Definition write_to_bls_file (self : BlsData) (raw_data : list bls_series)
    (file_name : string) (fs : gmap string (list bls_series))
    : gmap string (list bls_series) :=
  match self with
  | mkBlsData _ _ _ self_raw_data _ _ => <["file_name" := self_raw_data]> fs
  end.

Definition __init__ (fs : gmap string (list bls_series))
    (series_id_list : option (list string)) (start_year end_year json_file : option string)
    (raw_data : option (list bls_series)) : result BlsData :=
  raw ← (if negb (truthy raw_data) && truthy series_id_list then
           _request_bls_data series_id_list start_year end_year
         else _read_bls_file fs [raw_data]);
  df ← _construct_df raw;
  locations ← get_location qcew_area_codes_df oes_area_codes_df series_id_list;
  OK (mkBlsData series_id_list start_year end_year raw df locations).

End BlsDataClass.

(** ** [create_graph]

    The frame that is plotted is handled by position: its column labels may
    repeat after a renaming, and after a transposition they are the labels of
    the former index. *)

Section Graphs.
Context `{PandasOps}.

Record Table : Type := mkTable {
  t_index : list cell;
  t_columns : list cell;
  t_data : list (list cell);
}.

(** The frame [self.df], by position. *)
Definition to_table (t : IndexedFrame) : Table :=
  mkTable (index t) (Str <$> icolumns t)
    ((λ lr, (λ c, cell_at lr.2 c) <$> icolumns t) <$> irows t).

(** What a caller may pass as [custom_column_names]: [None], a dictionary,
    or a value of another type, of which only the truth value matters. *)
Inductive pyobj : Type :=
  | PyNone
  | PyDict (d : gmap string string)
  | PyOther (truth : bool).

Definition py_truth (o : pyobj) : bool :=
  match o with
  | PyNone => false
  | PyDict d => negb (bool_decide (d = ∅))
  | PyOther truth => truth
  end.

(** [df.rename(columns=mapping, errors="raise")]: a key of the mapping that
    labels no column is a [KeyError] (pandas names all such keys, the model
    one of them); the data and the index stay. *)
Definition rename_columns (mapping : gmap string string) (t : Table) : result Table :=
  match filter (λ k, Str k ∉ t_columns t) (map_to_list mapping).*1 with
  | k :: _ => Raise (KeyError k)
  | [] =>
      OK (mkTable (t_index t)
            ((λ c, match c with
                   | Str label => Str (default label (mapping !! label))
                   | _ => c
                   end) <$> t_columns t)
            (t_data t))
  end.

(** [df.transpose()]. *)
Definition frame_transpose (t : Table) : Table :=
  mkTable (t_columns t) (t_index t)
    ((λ j, (λ cells : list cell, default NaN (cells !! j)) <$> t_data t)
       <$> seq 0 (List.length (t_columns t))).

Inductive plot_kind : Type := Line | Bar.

(** The plotting backend: [df.plot] and [df.plot.bar], by kind, title,
    template and frame. *)
Context {figure : Type}.
Variable plot : plot_kind → string → string → Table → figure.

Definition create_graph (self : BlsData) (title graph_type : string)
    (clean_names : bool) (custom_column_names : pyobj) (transpose : bool)
    : result (option figure) :=
  let plotting_df := to_table (df self) in
  (* replace column names with location names *)
  plotting_df ← (if clean_names && negb (py_truth custom_column_names)
                 then rename_columns (locations self) plotting_df
                 else OK plotting_df);
  (* replace column names with a custom name *)
  plotting_df ← (if clean_names && py_truth custom_column_names
                 then
                   match custom_column_names with
                   | PyDict d => rename_columns d plotting_df
                   | _ => Raise TypeError
                   end
                 else OK plotting_df);
  (* transpose df, typically if length is 1 *)
  let plotting_df := if transpose then frame_transpose plotting_df else plotting_df in
  (* return graph type *)
  if decide (graph_type = "line") then
    OK (Some (plot Line title "simple_white" plotting_df))
  else if decide (graph_type = "bar") then
    OK (Some (plot Bar title "simple_white" plotting_df))
  else OK None.

End Graphs.

(** ** Vocabulary of the further statements *)

Section FurtherVocabulary.
Context `{PandasOps}.

(** A row without the three columns [organize_df] consumes. *)
Definition value_part (r : gmap string cell) : gmap string cell :=
  delete "period" (delete "year" (delete "date" r)).

Definition value_columns (cols : list string) : list string :=
  filter (λ c, c ∉ ["date"; "period"; "year"]) cols.

(** Every key reported in the raw data, with repetitions. *)
Definition all_keys (raw : list bls_series) : list (option cell * option cell) :=
  raw ≫= λ s, obs_key <$> data s.

(** The value of an observation is a string that does not parse. *)
Definition bad_value (o : observation) : Prop :=
  ∃ text, obs_value o = Str text ∧ to_numeric text = None.

(** The value of an observation is a string, a number or missing. *)
Definition json_value (o : observation) : Prop :=
  ∀ t, obs_value o ≠ Time t.

End FurtherVocabulary.

(** The name [get_location] is meant to give an identifier: the code its
    family's pattern extracts, looked up in the table of the family. *)
Definition resolve (qcew_area_codes_df oes_area_codes_df : gmap string string)
    (series : string) : option string :=
  if decide (prefix2 series = "EN") then
    search_EN series ≫= λ code, qcew_area_codes_df !! code
  else if decide (prefix2 series = "LA") then
    search_LA series ≫= λ code, qcew_area_codes_df !! code
  else if decide (prefix2 series = "OE") then
    search_OE series ≫= λ code, oes_area_codes_df !! code
  else None.

(** An identifier that neither test of [get_location] accepts. *)
Definition passed_over (series : string) : Prop :=
  match_EN_LA_class (prefix2 series) = false ∧ match_OE (prefix2 series) = false.

(** ** A reference instance of the pandas primitives

    Integers for numbers, and the two date forms this program builds:
    [YYYY-Qn] without a format, read as the first day of quarter [n], and
    [%m-%Y], read as the first day of the month. *)

Fixpoint digits_value (acc : Z) (s : string) : option Z :=
  match s with
  | EmptyString => Some acc
  | String c s' =>
      if is_digit c then digits_value (10 * acc + Z.of_nat (nat_of_ascii c) - 48) s'
      else None
  end.

Definition decimal_value (s : string) : option Z :=
  match s with
  | EmptyString => None
  | _ => digits_value 0 s
  end.

Definition ref_to_numeric (s : string) : option Z :=
  match s with
  | String c s' =>
      if bool_decide (c = "-"%char) then Z.opp <$> decimal_value s'
      else decimal_value s
  | EmptyString => None
  end.

(** The decimal digits of a natural number, by repeated division; [fuel]
    bounds the number of digits. *)
Fixpoint decimal_digits (fuel : nat) (n : Z) (acc : string) : string :=
  match fuel with
  | O => acc
  | S fuel' =>
      let acc' := String (digit_char n) acc in
      if n / 10 =? 0 then acc' else decimal_digits fuel' (n / 10) acc'
  end.

Definition ref_num_str (z : Z) : string :=
  if z <? 0 then "-" +:+ decimal_digits (Z.to_nat (- z)) (- z) ""
  else decimal_digits (S (Z.to_nat z)) z "".

Definition is_char (d : ascii) (c : ascii) : bool := bool_decide (c = d).

(** A string [YYYY-Qn] with [n] from 1 to 4. *)
Definition parse_quarter (s : string) : option Timestamp :=
  match match_classes
          [is_digit; is_digit; is_digit; is_digit; is_char "-"; is_char "Q"; one_of "1234"]
          s with
  | Some (_, EmptyString) =>
      year ← decimal_value (substring 0 4 s);
      n ← decimal_value (substring 6 1 s);
      Some (mkTs year (3 * n - 2) 1)
  | _ => None
  end.

(** The month of [%m]: [1[0-2]], then [0[1-9]], then [[1-9]]. *)
Definition parse_month (s : string) : option (Z * string) :=
  match match_classes [is_char "1"; one_of "012"] s with
  | Some (m, rest) => (λ v, (v, rest)) <$> decimal_value m
  | None =>
      match match_classes [is_char "0"; one_of "123456789"] s with
      | Some (m, rest) => (λ v, (v, rest)) <$> decimal_value m
      | None =>
          match match_classes [one_of "123456789"] s with
          | Some (m, rest) => (λ v, (v, rest)) <$> decimal_value m
          | None => None
          end
      end
  end.

(** [%m-%Y], the whole string. *)
Definition parse_month_year (s : string) : option Timestamp :=
  match parse_month s with
  | Some (m, rest) =>
      match match_classes [is_char "-"; is_digit; is_digit; is_digit; is_digit] rest with
      | Some (_, EmptyString) =>
          year ← decimal_value (substring 1 4 rest);
          if 1 <=? year then Some (mkTs year m 1) else None
      | _ => None
      end
  | None => None
  end.

Definition ref_to_datetime (fmt : option string) (s : string) : option Timestamp :=
  match fmt with
  | None => parse_quarter s
  | Some f => if bool_decide (f = "%m-%Y") then parse_month_year s else None
  end.

Definition ref_ops : PandasOps := {|
  num := Z;
  to_numeric := ref_to_numeric;
  num_str := ref_num_str;
  num_leb := Z.leb;
  to_datetime := ref_to_datetime;
|}.

(** ** Sample data, over the reference instance *)

Definition ref_obs (year period value : string) : @observation ref_ops :=
  mkObs (Str year) (Str period) (Str value).

(** Two monthly series that overlap on one month. *)
Definition cpi_series : @bls_series ref_ops :=
  mkSeries "CUUR0000SA0" [ref_obs "2020" "M01" "257"; ref_obs "2020" "M02" "258"].

Definition ppi_series : @bls_series ref_ops :=
  mkSeries "WPUFD4" [ref_obs "2020" "M02" "118"; ref_obs "2020" "M03" "117"].


(** One-row tables of each granularity, with the year as a number. *)
Definition one_row_table (year : Z) (period : string) : @DataFrame ref_ops :=
  mkDF ["year"; "period"; "ENU0401910010"]
    [single_row (Num (year : @num ref_ops)) period
       (<["ENU0401910010" := Num (5 : @num ref_ops)]> ∅)].

(** Two annual rows, the later year first. *)
Definition annual_table : @DataFrame ref_ops :=
  mkDF ["year"; "period"; "ENU0401910010"]
    [single_row (Str "2019") "A01" (<["ENU0401910010" := Num (7 : @num ref_ops)]> ∅);
     single_row (Str "2018") "A01" (<["ENU0401910010" := Num (6 : @num ref_ops)]> ∅)].

(** A reference table with the state of Arizona and none of its counties. *)
Definition qcew_sample : gmap string string := <["04000" := "Arizona -- Statewide"]> ∅.

(** A remote service that answers every request with the two series. *)
Definition sample_api (ids : option (list string)) (start_year end_year : option string)
    : result (list (@bls_series ref_ops)) :=
  OK [cpi_series; ppi_series].

(** A quarterly table without a [year] column. *)
Definition no_year_table : @DataFrame ref_ops :=
  mkDF ["period"; "ENU0401910010"]
    [<["period" := Str "Q01"]> (<["ENU0401910010" := Num (5 : @num ref_ops)]> ∅)].

(** A series without observations, and one whose only value is a dash. *)
Definition empty_series : @bls_series ref_ops := mkSeries "LNS14000000" [].

Definition dash_series : @bls_series ref_ops :=
  mkSeries "LNS14000000" [ref_obs "2020" "M01" "-"].

(** An object whose table has the one column of [cpi_series], with a
    location recorded for an identifier that labels no column. *)
Definition sample_object : @BlsData ref_ops :=
  mkBlsData (Some ["CUUR0000SA0"; "ENU0400010010"]) (Some "2020") (Some "2020")
    [cpi_series]
    (mkIF "date" ["CUUR0000SA0"]
       [(Time (mkTs 2020 1 1), <["CUUR0000SA0" := Num (257 : @num ref_ops)]> ∅);
        (Time (mkTs 2020 2 1), <["CUUR0000SA0" := Num (258 : @num ref_ops)]> ∅)])
    (<["ENU0400010010" := "Arizona -- Statewide"]> ∅).

(** A plotting backend that records its arguments. *)
Definition sample_plot (kind : plot_kind) (title template : string)
    (frame : @Table ref_ops) : plot_kind * string * string * @Table ref_ops :=
  (kind, title, template, frame).

(** * Properties *)

(** ** Results and loops *)

Lemma bind_OK {A B : Type} (m : result A) (f : A → result B) (b : B) :
  m ≫= f = OK b ↔ ∃ a, m = OK a ∧ f a = OK b.
Proof.
  destruct m as [a|e]; simpl; split.
  - intros Hf. exists a. done.
  - intros (a' & [= <-] & Hf). done.
  - discriminate.
  - intros (a' & Hm & _). discriminate.
Qed.

Lemma fmap_result_OK {A B : Type} (m : result A) (f : A → B) (b : B) :
  f <$> m = OK b → ∃ a, m = OK a ∧ b = f a.
Proof. destruct m as [a|e]; [|done]. intros [= <-]. eauto. Qed.

Ltac invert_bind H :=
  let a := fresh "a" in
  let Ha := fresh "H" a in
  apply bind_OK in H as (a & Ha & H).

Lemma traverse_OK {A B : Type} (f : A → result B) (l : list A) (l' : list B) :
  traverse f l = OK l' ↔ Forall2 (λ x y, f x = OK y) l l'.
Proof.
  revert l'. induction l as [|x l IH]; intros l'; simpl.
  - split.
    + intros [= <-]. constructor.
    + intros Hl. by inversion Hl.
  - destruct (f x) as [y|e] eqn:Hx.
    + destruct (traverse f l) as [ys|e] eqn:Hl.
      * split.
        -- intros [= <-]. constructor; [done|]. by apply IH.
        -- intros Hl'. inversion Hl' as [|? y' ? ys' Hy Hys]; subst.
           apply IH in Hys. congruence.
      * split; [discriminate|].
        intros Hl'. inversion Hl' as [|? y' ? ys' Hy Hys]; subst.
        apply IH in Hys. discriminate.
    + split; [discriminate|].
      intros Hl'. inversion Hl'; subst. congruence.
Qed.

Lemma Forall_exists_Forall2 {A B : Type} (f : A → result B) (l : list A) :
  Forall (λ x, ∃ y, f x = OK y) l → ∃ ys, Forall2 (λ x y, f x = OK y) l ys.
Proof.
  induction 1 as [|x l [y Hy] _ [ys IH]].
  - exists []. constructor.
  - exists (y :: ys). by constructor.
Qed.

Lemma traverse_total {A B : Type} (f : A → result B) (g : A → B) (l : list A) :
  Forall (λ x, f x = OK (g x)) l → traverse f l = OK (g <$> l).
Proof.
  intros Hl. apply traverse_OK. induction Hl; constructor; done.
Qed.

(** ** Order of the index labels *)


Section FrameProofs.
Context `{PandasOps}.



(** ** Steps of [organize_df] *)

Lemma assign_OK (c : string) (f : gmap string cell → result cell) (df df' : DataFrame) :
  assign c f df = OK df' ↔
  columns df' = (if decide (c ∈ columns df) then columns df else columns df ++ [c]) ∧
  Forall2 (λ r r', ∃ v, f r = OK v ∧ r' = <[c := v]> r) (rows df) (rows df').
Proof.
  unfold assign. rewrite bind_OK. split.
  - intros (rs & Hrs & [= <-]). simpl. split; [done|].
    apply traverse_OK in Hrs.
    eapply Forall2_impl; [exact Hrs|]. intros r r' Hr. simpl in Hr.
    apply bind_OK in Hr as (v & Hv & [= <-]). eauto.
  - intros [Hcols Hrows]. exists (rows df'). split.
    + apply traverse_OK. eapply Forall2_impl; [exact Hrows|].
      intros r r' (v & Hv & ->). by rewrite Hv.
    + destruct df'. simpl in *. by subst.
Qed.

Lemma index_drop_columns (names : list string) (t : IndexedFrame) :
  index (drop_columns names t) = index t.
Proof.
  unfold index, drop_columns. simpl. rewrite <- list_fmap_compose.
  by apply list_fmap_ext.
Qed.

Lemma sort_index_OK (t t' : IndexedFrame) :
  sort_index t = OK t' →
  index_name t' = index_name t ∧ icolumns t' = icolumns t ∧
  irows t' = merge_sort label_le (irows t).
Proof.
  unfold sort_index. destruct (same_kind (index t)); [|discriminate].
  intros [= <-]. done.
Qed.

Lemma sort_index_Permutation (t t' : IndexedFrame) :
  sort_index t = OK t' → index t' ≡ₚ index t.
Proof.
  intros (_ & _ & Hrows)%sort_index_OK. unfold index. rewrite Hrows.
  apply fmap_Permutation, merge_sort_Permutation.
Qed.



Lemma assign_pure (c : string) (g : gmap string cell → cell) (df : DataFrame) :
  assign c (λ r, OK (g r)) df =
  OK (mkDF (if decide (c ∈ columns df) then columns df else columns df ++ [c])
        ((λ r, <[c := g r]> r) <$> rows df)).
Proof.
  unfold assign.
  rewrite (traverse_total _ (λ r, <[c := g r]> r)); [done|].
  by apply Forall_true.
Qed.

Lemma cell_at_insert_eq (r : gmap string cell) (c : string) (v : cell) :
  cell_at (<[c := v]> r) c = v.
Proof. unfold cell_at. by rewrite lookup_insert_eq. Qed.

Lemma cell_at_insert_ne (r : gmap string cell) (c c' : string) (v : cell) :
  c ≠ c' → cell_at (<[c := v]> r) c' = cell_at r c'.
Proof. intros Hne. unfold cell_at. by rewrite lookup_insert_ne. Qed.

Lemma elem_of_with_date (c : string) (cols : list string) :
  c ∈ with_date cols ↔ c = "date" ∨ c ∈ cols.
Proof.
  unfold with_date. case_decide as Hd.
  - split; [auto|]. intros [->|Hc]; done.
  - rewrite elem_of_app, list_elem_of_singleton. tauto.
Qed.

Lemma quarterly_strings_eq (df : DataFrame) :
  "period" ∈ columns df → "year" ∈ columns df →
  quarterly_strings df = OK (mkDF (with_date (columns df)) (quarter_row <$> rows df)).
Proof.
  intros Hp Hy. unfold quarterly_strings, require_column.
  rewrite decide_True by done. simpl.
  rewrite assign_pure. simpl. rewrite !decide_True by done. simpl.
  rewrite assign_pure. simpl. unfold with_date. f_equal. f_equal.
  rewrite <- list_fmap_compose. apply list_fmap_ext. intros i r _. simpl.
  unfold quarter_row, quarter_string.
  rewrite cell_at_insert_ne by done. by rewrite cell_at_insert_eq.
Qed.

Lemma quarterly_strings_year (df df' : DataFrame) :
  "period" ∈ columns df → quarterly_strings df = OK df' → "year" ∈ columns df.
Proof.
  intros Hp. unfold quarterly_strings, require_column.
  rewrite decide_True by done. simpl. rewrite assign_pure. simpl.
  rewrite decide_True by done. case_decide; [done|discriminate].
Qed.

Lemma monthly_strings_eq (df : DataFrame) :
  "period" ∈ columns df → "year" ∈ columns df →
  monthly_strings df = OK (mkDF (with_date (columns df)) (month_row <$> rows df)).
Proof.
  intros Hp Hy. unfold monthly_strings, require_column.
  rewrite decide_True by done. simpl.
  rewrite assign_pure. simpl. rewrite !decide_True by done. simpl.
  rewrite assign_pure. simpl. unfold with_date. f_equal. f_equal.
  rewrite <- list_fmap_compose. apply list_fmap_ext. intros i r _. simpl.
  unfold month_row, month_string.
  rewrite cell_at_insert_eq. by rewrite cell_at_insert_ne.
Qed.

Lemma monthly_strings_year (df df' : DataFrame) :
  "period" ∈ columns df → monthly_strings df = OK df' → "year" ∈ columns df.
Proof.
  intros Hp. unfold monthly_strings, require_column.
  rewrite decide_True by done. simpl. rewrite assign_pure. simpl.
  rewrite decide_True by done. case_decide; [done|discriminate].
Qed.

(** Parsing the date strings of a frame whose [date] column holds the
    strings [str_of r]. *)
Lemma parse_dates_OK (fmt : option string) (str_of : gmap string cell → string)
    (pre : gmap string cell → gmap string cell) (cols : list string)
    (rs : list (gmap string cell)) (df' : DataFrame) :
  (∀ r, cell_at (pre r) "date" = Str (str_of r)) →
  "date" ∈ cols →
  assign "date" (λ r, to_datetime_cell fmt (cell_at r "date")) (mkDF cols (pre <$> rs))
    = OK df' ↔
  columns df' = cols ∧
  Forall2 (λ r r', ∃ d, to_datetime fmt (str_of r) = Some d ∧
                        r' = <["date" := Time d]> (pre r)) rs (rows df').
Proof.
  intros Hpre Hd. rewrite assign_OK. simpl. rewrite decide_True by done.
  rewrite Forall2_fmap_l.
  split; intros [Hcols Hrows]; (split; [done|]);
    (eapply Forall2_impl; [exact Hrows|]); simpl; intros r r'.
  - intros (v & Hv & ->). rewrite Hpre in Hv. simpl in Hv.
    destruct (to_datetime fmt (str_of r)) as [d|]; [|discriminate].
    injection Hv as <-. eauto.
  - intros (d & Hd' & ->). exists (Time d). rewrite Hpre. simpl. by rewrite Hd'.
Qed.

Lemma quarterly_OK (df df' : DataFrame) :
  "period" ∈ columns df →
  quarterly df = OK df' ↔
  "year" ∈ columns df ∧ columns df' = with_date (columns df) ∧
  Forall2 (λ r r', ∃ d, to_datetime None (quarter_string r) = Some d ∧
                        r' = <["date" := Time d]> (quarter_row r))
    (rows df) (rows df').
Proof.
  intros Hp. unfold quarterly. split.
  - intros Hq. invert_bind Hq.
    pose proof (quarterly_strings_year _ _ Hp Ha) as Hy.
    rewrite quarterly_strings_eq in Ha by done. injection Ha as <-.
    split; [done|].
    apply (parse_dates_OK None quarter_string quarter_row) in Hq; [done| |].
    + intros r. apply cell_at_insert_eq.
    + apply elem_of_with_date. by left.
  - intros (Hy & Hcols & Hrows). rewrite quarterly_strings_eq by done. simpl.
    apply (parse_dates_OK None quarter_string quarter_row); [| |done].
    + intros r. apply cell_at_insert_eq.
    + apply elem_of_with_date. by left.
Qed.

Lemma monthly_OK (df df' : DataFrame) :
  "period" ∈ columns df →
  monthly df = OK df' ↔
  "year" ∈ columns df ∧ columns df' = with_date (columns df) ∧
  Forall2 (λ r r', ∃ d, to_datetime (Some "%m-%Y") (month_string r) = Some d ∧
                        r' = <["date" := Time d]> (month_row r))
    (rows df) (rows df').
Proof.
  intros Hp. unfold monthly. split.
  - intros Hq. invert_bind Hq.
    pose proof (monthly_strings_year _ _ Hp Ha) as Hy.
    rewrite monthly_strings_eq in Ha by done. injection Ha as <-.
    split; [done|].
    apply (parse_dates_OK (Some "%m-%Y") month_string month_row) in Hq; [done| |].
    + intros r. apply cell_at_insert_eq.
    + apply elem_of_with_date. by left.
  - intros (Hy & Hcols & Hrows). rewrite monthly_strings_eq by done. simpl.
    apply (parse_dates_OK (Some "%m-%Y") month_string month_row); [| |done].
    + intros r. apply cell_at_insert_eq.
    + apply elem_of_with_date. by left.
Qed.

(** ** From the frame with its [date] column to the sorted table *)

Lemma set_index_date (df : DataFrame) (t : IndexedFrame) :
  set_index "date" df = OK t → "date" ∈ columns df ∧ index t = date_column df.
Proof.
  unfold set_index. case_decide as Hd; [|discriminate].
  intros [= <-]. split; [done|]. unfold index, date_column. simpl.
  rewrite <- list_fmap_compose. done.
Qed.

Lemma finish_OK (df : DataFrame) (t : IndexedFrame) :
  (t1 ← set_index "date" df; t2 ← sort_index t1;
   OK (drop_columns ["period"; "year"] t2)) = OK t →
  "date" ∈ columns df ∧ index t ≡ₚ date_column df.
Proof.
  intros Ht. invert_bind Ht. invert_bind Ht. injection Ht as <-.
  apply set_index_date in Ha as [Hd Hidx]. split; [done|].
  rewrite index_drop_columns, <- Hidx. by apply sort_index_Permutation.
Qed.

Lemma finish_total (df : DataFrame) :
  "date" ∈ columns df → same_kind (date_column df) = true →
  ∃ t, (t1 ← set_index "date" df; t2 ← sort_index t1;
        OK (drop_columns ["period"; "year"] t2)) = OK t.
Proof.
  intros Hd Hk. unfold set_index. rewrite decide_True by done. simpl.
  unfold sort_index.
  replace (index _) with (date_column df).
  - rewrite Hk. simpl. eauto.
  - unfold index, date_column. simpl. by rewrite <- list_fmap_compose.
Qed.

Lemma same_kind_times (dates : list Timestamp) : same_kind (Time <$> dates) = true.
Proof.
  unfold same_kind.
  assert (Hf : filter (λ c : cell, c ≠ NaN) (Time <$> dates) = Time <$> dates).
  { induction dates as [|d dates IH]; [done|].
    rewrite fmap_cons, filter_cons_True by done. by rewrite IH. }
  rewrite Hf. destruct dates as [|d dates]; [done|]. simpl.
  apply forallb_forall. intros c Hc. apply in_map_iff in Hc as (d' & <- & _). done.
Qed.

(** The rows that come out of the parsing step, and the dates read. *)
Lemma dated_rows_inv (P : gmap string cell → Timestamp → Prop)
    (pre : gmap string cell → gmap string cell) (l l' : list (gmap string cell)) :
  Forall2 (λ r r', ∃ d, P r d ∧ r' = <["date" := Time d]> (pre r)) l l' →
  ∃ dates, Forall2 P l dates ∧
           l' = zip_with (λ r d, <["date" := Time d]> (pre r)) l dates ∧
           (λ r, cell_at r "date") <$> l' = Time <$> dates.
Proof.
  induction 1 as [|r r' l l' (d & Hd & ->) _ (dates & Hds & Hl' & Hcol)].
  - exists []. repeat split; constructor.
  - exists (d :: dates). split; [by constructor|]. split.
    + simpl. by rewrite <- Hl'.
    + rewrite !fmap_cons, cell_at_insert_eq. by rewrite Hcol.
Qed.

Lemma dated_rows_intro (P : gmap string cell → Timestamp → Prop)
    (pre : gmap string cell → gmap string cell) (l : list (gmap string cell))
    (dates : list Timestamp) :
  Forall2 P l dates →
  Forall2 (λ r r', ∃ d, P r d ∧ r' = <["date" := Time d]> (pre r)) l
    (zip_with (λ r d, <["date" := Time d]> (pre r)) l dates) ∧
  (λ r, cell_at r "date") <$> zip_with (λ r d, <["date" := Time d]> (pre r)) l dates
    = Time <$> dates.
Proof.
  induction 1 as [|r d l dates Hd _ [IH1 IH2]]; simpl; split; try constructor; eauto.
  rewrite cell_at_insert_eq. f_equal. exact IH2.
Qed.

(** ** Which branch runs *)

Lemma first_period_char_cons (df : DataFrame) (r0 : gmap string cell)
    (rest : list (gmap string cell)) (c : ascii) (code : string) :
  rows df = r0 :: rest → "period" ∈ columns df →
  cell_at r0 "period" = Str (String c code) →
  first_period_char df = OK c.
Proof.
  intros Hrows Hp Hc. unfold first_period_char.
  rewrite Hrows. rewrite decide_True by done. by rewrite Hc.
Qed.

Lemma quarterly_branch (df : DataFrame) (r0 : gmap string cell)
    (rest : list (gmap string cell)) (code : string) :
  rows df = r0 :: rest → "period" ∈ columns df →
  cell_at r0 "period" = Str (String "Q" code) →
  organize_df df =
  (df' ← quarterly df; t1 ← set_index "date" df'; t2 ← sort_index t1;
   OK (drop_columns ["period"; "year"] t2)).
Proof.
  intros Hrows Hp Hc. unfold organize_df.
  rewrite (first_period_char_cons df r0 rest "Q" code) by done. simpl.
  destruct (quarterly df) as [df'|e] eqn:Hq; [|done]. simpl.
  apply quarterly_OK in Hq as (Hy & Hcols & Hrs); [|done].
  rewrite Hrows in Hrs.
  inversion Hrs as [|? r0' ? rest' (d & Hd & Hr0') Hrest Heq1 Heq2]; subst.
  assert (Hfirst : first_period_char df' = OK "Q"%char).
  { apply (first_period_char_cons df' (<["date" := Time d]> (quarter_row r0)) rest'
             "Q" (replace_char "0" "" code)); [done| |].
    - rewrite Hcols. apply elem_of_with_date. by right.
    - rewrite cell_at_insert_ne by done. unfold quarter_row.
      rewrite cell_at_insert_ne by done. rewrite cell_at_insert_eq.
      rewrite Hc. done. }
  rewrite Hfirst. simpl. rewrite Hfirst. done.
Qed.

Lemma monthly_branch (df : DataFrame) (r0 : gmap string cell)
    (rest : list (gmap string cell)) (code : string) :
  rows df = r0 :: rest → "period" ∈ columns df →
  cell_at r0 "period" = Str (String "M" code) →
  organize_df df =
  (df' ← monthly df;
   c ← first_period_char df';
   df'' ← (if decide (c = "A"%char) then rename_column "year" "date" df' else OK df');
   t1 ← set_index "date" df''; t2 ← sort_index t1;
   OK (drop_columns ["period"; "year"] t2)).
Proof.
  intros Hrows Hp Hc. unfold organize_df.
  rewrite (first_period_char_cons df r0 rest "M" code) by done. simpl.
  rewrite (first_period_char_cons df r0 rest "M" code) by done. simpl.
  done.
Qed.

(** After the monthly branch the annual one cannot run to the end: the frame
    already has a [date] column. *)
Lemma rename_after_monthly (df df' : DataFrame) :
  "period" ∈ columns df → monthly df = OK df' →
  ∀ df'', rename_column "year" "date" df' ≠ OK df''.
Proof.
  intros Hp Hm df''. apply monthly_OK in Hm as (Hy & Hcols & _); [|done].
  unfold rename_column. rewrite Hcols.
  rewrite decide_True by (apply elem_of_with_date; by right).
  rewrite decide_True by (apply elem_of_with_date; by left).
  done.
Qed.

Lemma single_row_year (y : cell) (p : string) (others : gmap string cell) :
  cell_at (single_row y p others) "year" = y.
Proof. unfold single_row. apply cell_at_insert_eq. Qed.

Lemma single_row_period (y : cell) (p : string) (others : gmap string cell) :
  cell_at (single_row y p others) "period" = Str p.
Proof.
  unfold single_row. rewrite cell_at_insert_ne by done. apply cell_at_insert_eq.
Qed.

(** ** The granularity normalizer *)

(** C2, as amended.  For every non-empty table whose first row's period code
    starts with Q, [organize_df] removes every character 0 from the period
    code of each row, joins year and period as [<year>-<period>] and parses
    that string without a format: when it returns, the index of the table
    holds exactly the dates parsed from these strings; it returns as soon as
    the table has a year column and every string parses.  For the year 2020
    the strings of the codes Q01 and Q04 are [2020-Q1] and [2020-Q4]. *)
Theorem organize_df_quarterly (df : DataFrame) (r0 : gmap string cell)
    (rest : list (gmap string cell)) (code : string) :
  rows df = r0 :: rest →
  "period" ∈ columns df →
  cell_at r0 "period" = Str (String "Q" code) →
  (∀ t, organize_df df = OK t →
     ∃ dates,
       Forall2 (λ r d, to_datetime None (quarter_string r) = Some d) (rows df) dates ∧
       index t ≡ₚ Time <$> dates) ∧
  (∀ dates,
     "year" ∈ columns df →
     Forall2 (λ r d, to_datetime None (quarter_string r) = Some d) (rows df) dates →
     ∃ t, organize_df df = OK t ∧ index t ≡ₚ Time <$> dates) ∧
  (∀ y others,
     py_str y = "2020" →
     quarter_string (single_row y "Q01" others) = "2020-Q1" ∧
     quarter_string (single_row y "Q04" others) = "2020-Q4").
Proof.
  intros Hrows Hp Hc.
  rewrite (quarterly_branch df r0 rest code Hrows Hp Hc).
  split; [|split].
  - intros t Ht. invert_bind Ht.
    apply quarterly_OK in Ha as (Hy & Hcols & Hrs); [|done].
    apply dated_rows_inv in Hrs as (dates & Hds & _ & Hcol).
    apply finish_OK in Ht as [_ Hperm].
    exists dates. split; [done|]. rewrite Hperm. unfold date_column. by rewrite Hcol.
  - intros dates Hy Hds.
    pose proof (dated_rows_intro _ quarter_row _ _ Hds) as [Hrs Hcol].
    set (df' := mkDF (with_date (columns df))
                  (zip_with (λ r d, <["date" := Time d]> (quarter_row r)) (rows df) dates)).
    assert (Hq : quarterly df = OK df') by (by apply quarterly_OK).
    rewrite Hq. simpl.
    assert (Hdate : date_column df' = Time <$> dates) by exact Hcol.
    destruct (finish_total df') as [t Ht].
    { apply elem_of_with_date. by left. }
    { rewrite Hdate. apply same_kind_times. }
    exists t. split; [done|].
    apply finish_OK in Ht as [_ Hperm]. by rewrite Hperm, Hdate.
  - intros y others Hy. unfold quarter_string.
    rewrite !single_row_year, !single_row_period, Hy. done.
Qed.

(** C3.  For every non-empty table whose first row's period code starts with
    M, [organize_df] removes the marker M from the period code of each row,
    joins period and year as [<month>-<year>] and parses that string with
    the format [%m-%Y]: when it returns, the index of the table holds exactly
    the dates parsed from these strings; it returns as soon as the table has
    a year column, every string parses and what is left of the first code
    starts with a character other than A.  For the year 2021 the string of
    the code M03 is [03-2021]. *)
Theorem organize_df_monthly (df : DataFrame) (r0 : gmap string cell)
    (rest : list (gmap string cell)) (code : string) :
  rows df = r0 :: rest →
  "period" ∈ columns df →
  cell_at r0 "period" = Str (String "M" code) →
  (∀ t, organize_df df = OK t →
     ∃ dates,
       Forall2 (λ r d, to_datetime (Some "%m-%Y") (month_string r) = Some d)
         (rows df) dates ∧
       index t ≡ₚ Time <$> dates) ∧
  (∀ dates c code',
     "year" ∈ columns df →
     replace_char "M" "" code = String c code' → c ≠ "A"%char →
     Forall2 (λ r d, to_datetime (Some "%m-%Y") (month_string r) = Some d)
       (rows df) dates →
     ∃ t, organize_df df = OK t ∧ index t ≡ₚ Time <$> dates) ∧
  (∀ y others,
     py_str y = "2021" →
     month_string (single_row y "M03" others) = "03-2021").
Proof.
  intros Hrows Hp Hc.
  rewrite (monthly_branch df r0 rest code Hrows Hp Hc).
  split; [|split].
  - intros t Ht. invert_bind Ht. invert_bind Ht. invert_bind Ht.
    case_decide as HA.
    { by apply (rename_after_monthly df a Hp) in Ha1. }
    injection Ha1 as <-.
    apply monthly_OK in Ha as (Hy & Hcols & Hrs); [|done].
    apply dated_rows_inv in Hrs as (dates & Hds & _ & Hcol).
    apply finish_OK in Ht as [_ Hperm].
    exists dates. split; [done|]. rewrite Hperm. unfold date_column. by rewrite Hcol.
  - intros dates c code' Hy Hcode HA Hds.
    pose proof (dated_rows_intro _ month_row _ _ Hds) as [Hrs Hcol].
    set (df' := mkDF (with_date (columns df))
                  (zip_with (λ r d, <["date" := Time d]> (month_row r)) (rows df) dates)).
    assert (Hm : monthly df = OK df') by (by apply monthly_OK).
    rewrite Hm. simpl.
    assert (Hfirst : first_period_char df' = OK c).
    { rewrite Hrows in Hds. inversion Hds as [|? d0 ? dates0 Hd0 Hds0]; subst.
      apply (first_period_char_cons df' (<["date" := Time d0]> (month_row r0))
               (zip_with (λ r d, <["date" := Time d]> (month_row r)) rest dates0)
               c code').
      - unfold df'. simpl. by rewrite Hrows.
      - apply elem_of_with_date. by right.
      - rewrite cell_at_insert_ne by done. unfold month_row.
        rewrite cell_at_insert_ne by done. rewrite cell_at_insert_eq.
        rewrite Hc. simpl. by rewrite Hcode. }
    rewrite Hfirst. simpl. rewrite decide_False by done. simpl.
    assert (Hdate : date_column df' = Time <$> dates) by exact Hcol.
    destruct (finish_total df') as [t Ht].
    { apply elem_of_with_date. by left. }
    { rewrite Hdate. apply same_kind_times. }
    exists t. split; [done|].
    apply finish_OK in Ht as [_ Hperm]. by rewrite Hperm, Hdate.
  - intros y others Hy. unfold month_string.
    rewrite !single_row_year, !single_row_period, Hy. done.
Qed.

Lemma annual_branch (df : DataFrame) :
  first_period_char df = OK "A"%char →
  organize_df df =
  (df' ← rename_column "year" "date" df; t1 ← set_index "date" df';
   t2 ← sort_index t1; OK (drop_columns ["period"; "year"] t2)).
Proof.
  intros HA. unfold organize_df. rewrite HA. simpl. rewrite HA. simpl.
  rewrite HA. done.
Qed.

Lemma rename_year_date (df df' : DataFrame) :
  rename_column "year" "date" df = OK df' →
("year" ∉ columns df') ∧ date_column df' = (λ r, cell_at r "year") <$> rows df.
Proof.
  unfold rename_column. case_decide as Hy; [|discriminate].
  case_decide as Hd; [discriminate|]. intros [= <-]. simpl. split.
  - intros Hin. apply list_elem_of_fmap in Hin as (c & Hc & _).
    by case_decide.
  - unfold date_column. simpl. rewrite <- list_fmap_compose.
    apply list_fmap_ext. intros i r _. simpl. apply cell_at_insert_eq.
Qed.


(** C5.  A table without rows has no row of label 0: [organize_df] raises
    the [KeyError] of [df.loc[0]] and returns no table, whatever the
    columns. *)
Theorem organize_df_empty (cols : list string) :
  organize_df (mkDF cols []) = Raise (KeyError "0").
Proof. reflexivity. Qed.

(** C6.  With no series the loop of [_construct_df] does not run: the table
    it has built is the skeleton of the two columns [year] and [period],
    without rows.  That table is then handed to [organize_df], which finds
    no first row in it. *)
Theorem merged_frame_no_series :
  merged_frame [] = OK (mkDF ["year"; "period"] []) ∧
  _construct_df [] = Raise (KeyError "0").
Proof. split; reflexivity. Qed.

End FrameProofs.

(** ** The outer merge *)

Section MergeProofs.
Context `{PandasOps}.

Lemma kmap_pointwise_id (f : string → string) (m : gmap string cell) :
  (∀ c, f c = c) → kmap f m = m.
Proof.
  intros Hf.
  assert (Inj (=) (=) f) by (intros x y; by rewrite !Hf).
  apply map_eq. intros c. rewrite <- (Hf c) at 1. apply (lookup_kmap f).
Qed.

Lemma suffixed_nil (sfx c : string) : suffixed [] sfx c = c.
Proof. unfold suffixed. rewrite decide_False; [done|]. apply not_elem_of_nil. Qed.

Lemma fmap_suffixed_nil (sfx : string) (l : list string) :
  suffixed [] sfx <$> l = l.
Proof.
  induction l as [|c l IH]; [done|]. by rewrite fmap_cons, suffixed_nil, IH.
Qed.

Lemma joined_row_plain (lcols rcols : list string) (lo ro : option (gmap string cell)) :
  joined_row lcols rcols (suffixed [] "_x") (suffixed [] "_y") lo ro
  = plain_join lcols rcols lo ro.
Proof.
  unfold joined_row, plain_join.
  destruct lo as [l|], ro as [r|];
    rewrite ?kmap_pointwise_id by apply suffixed_nil;
    rewrite ?fmap_suffixed_nil;
    by rewrite ?(left_id_L ∅ (∪)).
Qed.

Lemma first_seen_NoDup {A : Type} `{EqDecision A} (l : list A) : NoDup (first_seen l).
Proof. unfold first_seen. rewrite reverse_Permutation. apply NoDup_remove_dups. Qed.

Lemma filter_none {A : Type} (P : A → Prop) `{∀ x, Decision (P x)} (l : list A) :
  (∀ x, x ∈ l → ¬ P x) → filter P l = [].
Proof.
  induction l as [|x l IH]; intros Hl; [done|].
  rewrite filter_cons_False by (apply Hl; by left).
  apply IH. intros y Hy. apply Hl. by right.
Qed.

Lemma elem_of_first_seen {A : Type} `{EqDecision A} (l : list A) (x : A) :
  x ∈ first_seen l ↔ x ∈ l.
Proof.
  unfold first_seen. by rewrite elem_of_reverse, elem_of_remove_dups, elem_of_reverse.
Qed.

(** With distinct keys a key selects at most one row. *)
Lemma filter_key_NoDup (l : list (gmap string cell)) (k : option cell * option cell) :
  NoDup (key_of <$> l) →
  (filter (λ r, key_of r = k) l = [] ∧ k ∉ key_of <$> l) ∨
  (∃ r, filter (λ r, key_of r = k) l = [r] ∧ r ∈ l ∧ key_of r = k).
Proof.
  induction l as [|r l IH]; intros Hnd.
  - left. split; [done|]. apply not_elem_of_nil.
  - rewrite fmap_cons in Hnd. apply NoDup_cons in Hnd as [Hr Hnd].
    destruct (decide (key_of r = k)) as [Hk|Hk].
    + right. exists r. rewrite filter_cons_True by done.
      destruct (IH Hnd) as [[Hnil _]|(r' & _ & Hin & Hk')].
      * rewrite Hnil. split; [done|]. split; [by left|done].
      * exfalso. apply Hr. rewrite Hk, <- Hk'. by apply list_elem_of_fmap_2.
    + rewrite filter_cons_False by done.
      destruct (IH Hnd) as [[Hnil Hnot]|(r' & Hone & Hin & Hk')].
      * left. split; [done|]. rewrite fmap_cons.
        intros [Heq|Hin]%elem_of_cons; [by symmetry in Heq|done].
      * right. exists r'. split; [done|]. split; [by right|done].
Qed.

Lemma find_key_Some (l : list (gmap string cell)) (k : option cell * option cell)
    (r : gmap string cell) :
  find_key l k = Some r → r ∈ l ∧ key_of r = k.
Proof.
  unfold find_key. intros Hhead.
  assert (Hin : r ∈ filter (λ r, key_of r = k) l).
  { destruct (filter _ l) as [|r' rs]; [done|]. injection Hhead as ->. by left. }
  by apply list_elem_of_filter in Hin as [Hk Hin].
Qed.

Lemma find_key_None (l : list (gmap string cell)) (k : option cell * option cell) :
  find_key l k = None ↔ k ∉ key_of <$> l.
Proof.
  unfold find_key. split.
  - intros Hhead Hin. apply list_elem_of_fmap in Hin as (r & -> & Hin).
    assert (Hr : r ∈ filter (λ r', key_of r' = key_of r) l)
      by (by apply list_elem_of_filter).
    destruct (filter _ l); [by apply elem_of_nil in Hr|done].
  - intros Hnot. destruct (filter _ l) as [|r rs] eqn:Hf; [done|].
    exfalso. apply Hnot.
    assert (Hr : r ∈ filter (λ r', key_of r' = k) l) by (rewrite Hf; by left).
    apply list_elem_of_filter in Hr as [<- Hr]. by apply list_elem_of_fmap_2.
Qed.

Lemma joined_group_unique (lcols rcols : list string) (lname rname : string → string)
    (lrows rrows : list (gmap string cell)) (k : option cell * option cell) :
  NoDup (key_of <$> lrows) → NoDup (key_of <$> rrows) →
  k ∈ (key_of <$> lrows) ++ (key_of <$> rrows) →
  joined_group lcols rcols lname rname lrows rrows k
  = [joined_row lcols rcols lname rname (find_key lrows k) (find_key rrows k)].
Proof.
  intros Hl Hr Hk. unfold joined_group, find_key.
  destruct (filter_key_NoDup lrows k Hl) as [[-> Hnl]|(l & -> & _ & _)];
    destruct (filter_key_NoDup rrows k Hr) as [[-> Hnr]|(r & -> & _ & _)];
    try done.
  apply elem_of_app in Hk as [Hk|Hk]; done.
Qed.

(** The merge of two frames that share no value column and hold each key
    once: one row for each key of either frame. *)
Lemma merge_disjoint (left right : DataFrame) :
  "year" ∈ columns left → "period" ∈ columns left →
  "year" ∈ columns right → "period" ∈ columns right →
  (∀ c, c ∈ non_key (columns left) → c ∉ columns right) →
  NoDup (columns left ++ non_key (columns right)) →
  NoDup (key_of <$> rows left) → NoDup (key_of <$> rows right) →
  merge left right =
  OK (mkDF (columns left ++ non_key (columns right))
        ((λ k, plain_join (columns left) (columns right)
                 (find_key (rows left) k) (find_key (rows right) k))
           <$> first_seen ((key_of <$> rows left) ++ (key_of <$> rows right)))).
Proof.
  intros Hyl Hpl Hyr Hpr Hdisj Hcols Hkl Hkr. unfold merge.
  assert (Hkeys : filter (λ c, c ∉ columns left ∨ c ∉ columns right) on_keys = []).
  { unfold on_keys. rewrite !filter_cons_False, filter_nil by tauto. done. }
  rewrite Hkeys.
  assert (Hov : filter (λ c, c ∈ columns right) (non_key (columns left)) = []).
  { apply filter_none. intros c Hc Hin. by apply (Hdisj c). }
  rewrite Hov, !fmap_suffixed_nil.
  rewrite decide_True by done. f_equal. f_equal.
  set (keys := first_seen _).
  assert (Hsub : ∀ k, k ∈ keys → k ∈ (key_of <$> rows left) ++ (key_of <$> rows right)).
  { intros k. apply elem_of_first_seen. }
  clearbody keys. induction keys as [|k keys IH]; [done|].
  rewrite fmap_cons. simpl.
  rewrite joined_group_unique by (try done; apply Hsub; by left).
  rewrite joined_row_plain. simpl. f_equal.
  apply IH. intros k' Hk'. apply Hsub. by right.
Qed.

(** *** Cells of the joined rows *)

Lemma lookup_nan_row (cols : list string) (c : string) :
  nan_row cols !! c = if decide (c ∈ cols) then Some NaN else None.
Proof.
  unfold nan_row. induction cols as [|c' cols IH].
  - rewrite decide_False by apply not_elem_of_nil. apply lookup_empty.
  - rewrite fmap_cons. simpl. destruct (decide (c' = c)) as [->|Hne].
    + rewrite lookup_insert_eq. rewrite decide_True; [done|by left].
    + rewrite lookup_insert_ne by done. rewrite IH.
      destruct (decide (c ∈ cols)) as [Hin|Hin].
      * rewrite decide_True; [done|by right].
      * rewrite decide_False; [done|].
        intros [->|Hc]%elem_of_cons; done.
Qed.

Lemma not_on_keys (id : string) : id ∉ on_keys ↔ id ≠ "year" ∧ id ≠ "period".
Proof.
  unfold on_keys. rewrite !not_elem_of_cons. split.
  - intros (? & ? & _). done.
  - intros [? ?]. split; [done|]. split; [done|]. apply not_elem_of_nil.
Qed.

Lemma lookup_series_row (id : string) (o : observation) (v : cell) (c : string) :
  id ∉ on_keys →
  series_row id o v !! c =
  if decide (c = id) then Some v
  else if decide (c = "period") then Some (obs_period o)
  else if decide (c = "year") then Some (obs_year o)
  else None.
Proof.
  intros [Hy Hp]%not_on_keys. unfold series_row.
  destruct (decide (c = id)) as [->|Hid].
  { by rewrite lookup_insert_eq. }
  rewrite lookup_insert_ne by done.
  destruct (decide (c = "period")) as [->|Hcp].
  { by rewrite lookup_insert_eq. }
  rewrite lookup_insert_ne by done.
  destruct (decide (c = "year")) as [->|Hcy].
  { by rewrite lookup_insert_eq. }
  rewrite lookup_insert_ne by done. apply lookup_empty.
Qed.

Lemma key_of_series_row (id : string) (o : observation) (v : cell) :
  id ∉ on_keys → key_of (series_row id o v) = obs_key o.
Proof.
  intros Hid. pose proof Hid as [Hy Hp]%not_on_keys.
  unfold key_of, obs_key. rewrite !lookup_series_row by done.
  f_equal; repeat case_decide; congruence.
Qed.

Lemma lookup_value_cells (r : gmap string cell) (c : string) :
  value_cells r !! c = if decide (c ∈ on_keys) then None else r !! c.
Proof.
  unfold value_cells.
  destruct (decide (c = "year")) as [->|Hy].
  { rewrite lookup_delete_eq. rewrite decide_True; [done|]. by left. }
  rewrite lookup_delete_ne by done.
  destruct (decide (c = "period")) as [->|Hp].
  { rewrite lookup_delete_eq. rewrite decide_True; [done|]. right. by left. }
  rewrite lookup_delete_ne by done.
  rewrite decide_False; [done|]. by apply not_on_keys.
Qed.

Lemma lookup_key_cells (r : gmap string cell) (c : string) :
  key_cells r !! c = if decide (c ∈ on_keys) then r !! c else None.
Proof.
  unfold key_cells. destruct (decide (c ∈ on_keys)) as [Hc|Hc].
  - destruct (r !! c) as [x|] eqn:Hr.
    + by apply map_lookup_filter_Some.
    + apply map_lookup_filter_None. by left.
  - apply map_lookup_filter_None. right. intros x _. done.
Qed.

Lemma lookup_union_cases (m1 m2 : gmap string cell) (c : string) :
  (m1 ∪ m2) !! c = match m1 !! c with Some x => Some x | None => m2 !! c end.
Proof.
  rewrite lookup_union. destruct (m1 !! c), (m2 !! c); done.
Qed.

Lemma NoDup_fmap_eq {A B : Type} (f : A → B) (l : list A) (x y : A) :
  NoDup (f <$> l) → x ∈ l → y ∈ l → f x = f y → x = y.
Proof.
  induction l as [|z l IH]; intros Hnd Hx Hy Hf.
  - by apply elem_of_nil in Hx.
  - rewrite fmap_cons in Hnd. apply NoDup_cons in Hnd as [Hz Hnd].
    apply elem_of_cons in Hx as [->|Hx]; apply elem_of_cons in Hy as [->|Hy].
    + done.
    + exfalso. apply Hz. rewrite Hf. by apply list_elem_of_fmap_2.
    + exfalso. apply Hz. rewrite <- Hf. by apply list_elem_of_fmap_2.
    + by apply IH.
Qed.

(** *** The frame of one series *)

Lemma series_frame_OK (s : bls_series) :
  data s ≠ [] →
  Forall (λ o, ∃ v, numeric_cell (obs_value o) = OK v) (data s) →
  seriesID s ∉ on_keys →
  ∃ vals,
    Forall2 (λ o v, numeric_cell (obs_value o) = OK v) (data s) vals ∧
    series_frame s =
    OK (mkDF ["year"; "period"; seriesID s]
          (zip_with (series_row (seriesID s)) (data s) vals)).
Proof.
  intros Hne Hvals Hid.
  destruct (Forall_exists_Forall2 _ _ Hvals) as [vals Hvs].
  exists vals. split; [done|].
  unfold series_frame. destruct (data s) as [|o l] eqn:Hdata; [done|].
  apply traverse_OK in Hvs. rewrite Hvs. simpl.
  by rewrite decide_False.
Qed.

Lemma series_rows_keys (id : string) (l : list observation) (vals : list cell) :
  id ∉ on_keys →
  Forall2 (λ o v, numeric_cell (obs_value o) = OK v) l vals →
  key_of <$> zip_with (series_row id) l vals = obs_key <$> l.
Proof.
  intros Hid. induction 1 as [|o v l vals _ _ IH]; [done|].
  change (zip_with (series_row id) (o :: l) (v :: vals))
    with (series_row id o v :: zip_with (series_row id) l vals).
  by rewrite !fmap_cons, key_of_series_row, IH.
Qed.

Lemma series_rows_inv (id : string) (l : list observation) (vals : list cell)
    (r : gmap string cell) :
  Forall2 (λ o v, numeric_cell (obs_value o) = OK v) l vals →
  r ∈ zip_with (series_row id) l vals →
  ∃ o v, o ∈ l ∧ numeric_cell (obs_value o) = OK v ∧ r = series_row id o v.
Proof.
  induction 1 as [|o v l vals Hv _ IH]; simpl; intros Hr.
  - by apply elem_of_nil in Hr.
  - apply elem_of_cons in Hr as [->|Hr].
    + exists o, v. split; [by left|done].
    + destruct (IH Hr) as (o' & v' & Ho' & Hv' & ->).
      exists o', v'. split; [by right|done].
Qed.

Lemma non_key_series (id : string) :
  id ∉ on_keys → non_key ["year"; "period"; id] = [id].
Proof.
  intros Hid. unfold non_key.
  rewrite filter_cons_False by (intros Hn; apply Hn; by left).
  rewrite filter_cons_False by (intros Hn; apply Hn; right; by left).
  by rewrite filter_cons_True.
Qed.

(** The three shapes of a joined row when the right frame is the frame of
    one series. *)
Lemma lookup_join_both (lcols : list string) (id : string) (l : gmap string cell)
    (o : observation) (v : cell) (c : string) :
  id ∉ on_keys → id ∉ lcols → (∀ c', is_Some (l !! c') ↔ c' ∈ lcols) →
  plain_join lcols ["year"; "period"; id] (Some l) (Some (series_row id o v)) !! c
  = if decide (c = id) then Some v else l !! c.
Proof.
  intros Hid Hfresh Hdom. simpl.
  rewrite lookup_union_cases, lookup_value_cells, lookup_series_row by done.
  destruct (decide (c = id)) as [->|Hc].
  - rewrite decide_False by done.
    destruct (l !! id) eqn:Hl; [|done].
    exfalso. apply Hfresh, Hdom. by rewrite Hl.
  - destruct (l !! c); [done|]. pose proof Hid as [Hy Hp]%not_on_keys.
    repeat case_decide; try done; subst.
    + exfalso. match goal with Hn : _ ∉ on_keys |- _ => apply Hn end. right. by left.
    + exfalso. match goal with Hn : _ ∉ on_keys |- _ => apply Hn end. by left.
Qed.

Lemma lookup_join_left (lcols : list string) (id : string) (l : gmap string cell)
    (c : string) :
  id ∉ on_keys → id ∉ lcols → (∀ c', is_Some (l !! c') ↔ c' ∈ lcols) →
  plain_join lcols ["year"; "period"; id] (Some l) None !! c
  = if decide (c = id) then Some NaN else l !! c.
Proof.
  intros Hid Hfresh Hdom. simpl.
  rewrite non_key_series, lookup_union_cases, lookup_nan_row by done.
  destruct (decide (c = id)) as [->|Hc].
  - rewrite decide_True by (by left).
    destruct (l !! id) eqn:Hl; [|done].
    exfalso. apply Hfresh, Hdom. by rewrite Hl.
  - destruct (l !! c); [done|].
    rewrite decide_False; [done|]. by intros ->%list_elem_of_singleton.
Qed.

Lemma lookup_join_right (lcols : list string) (id : string)
    (o : observation) (v : cell) (c : string) :
  id ∉ on_keys → id ∉ lcols →
  plain_join lcols ["year"; "period"; id] None (Some (series_row id o v)) !! c
  = if decide (c = id) then Some v
    else if decide (c = "period") then Some (obs_period o)
    else if decide (c = "year") then Some (obs_year o)
    else if decide (c ∈ lcols) then Some NaN else None.
Proof.
  intros Hid Hfresh. simpl. pose proof Hid as [Hy Hp]%not_on_keys.
  rewrite !lookup_union_cases, lookup_key_cells, lookup_nan_row, lookup_value_cells,
    lookup_series_row by done.
  destruct (decide (c = id)) as [->|Hc].
  { rewrite !decide_False by done. done. }
  destruct (decide (c = "period")) as [->|Hcp].
  { rewrite decide_True; [done|]. right. by left. }
  destruct (decide (c = "year")) as [->|Hcy].
  { rewrite decide_True; [done|]. by left. }
  rewrite decide_False by (by apply not_on_keys).
  by destruct (decide (c ∈ lcols)).
Qed.

Lemma series_cells_ext (s : bls_series) (r r' : gmap string cell) :
  key_of r = key_of r' → r !! seriesID s = r' !! seriesID s →
  series_cells s r' → series_cells s r.
Proof.
  intros Hk Hc [H1 H2]. unfold series_cells. rewrite Hk, Hc. done.
Qed.

(** *** One turn of the loop *)

Lemma merge_step (done : list bls_series) (df : DataFrame) (s : bls_series) :
  table_inv done df →
  data s ≠ [] →
  Forall (λ o, ∃ v, numeric_cell (obs_value o) = OK v) (data s) →
  seriesID s ∉ on_keys →
  seriesID s ∉ seriesID <$> done →
  NoDup (obs_key <$> data s) →
  ∃ df', (series_frame s ≫= merge df) = OK df' ∧ table_inv (done ++ [s]) df'.
Proof.
  intros (Hcols & Hnd & Hkeys & Hunion & Hdom & Hcells) Hne Hvals Hid Hfresh Hobs.
  destruct (series_frame_OK s Hne Hvals Hid) as (vals & Hvs & Hsf).
  pose proof (series_rows_keys (seriesID s) _ _ Hid Hvs) as HkR.
  pose proof Hid as [Hidy Hidp]%not_on_keys.
  assert (Hidcols : seriesID s ∉ columns df).
  { rewrite Hcols, !not_elem_of_cons. done. }
  assert (Hycol : "year" ∈ columns df) by (rewrite Hcols; by left).
  assert (Hpcol : "period" ∈ columns df) by (rewrite Hcols; right; by left).
  assert (Hdone : ∀ s', s' ∈ done →
            seriesID s' ∈ columns df ∧ seriesID s' ≠ seriesID s ∧
            seriesID s' ≠ "year" ∧ seriesID s' ≠ "period").
  { intros s' Hs'.
    assert (Hin : seriesID s' ∈ seriesID <$> done) by (by apply list_elem_of_fmap_2).
    rewrite Hcols in Hnd |- *.
    apply NoDup_cons in Hnd as [Hy [Hp _]%NoDup_cons].
    rewrite not_elem_of_cons in Hy.
    split; [right; by right|]. split; [by intros Heq; rewrite Heq in Hin|].
    split; intros Heq; rewrite Heq in Hin; tauto. }
  set (R := zip_with (series_row (seriesID s)) (data s) vals) in *.
  assert (Hm := merge_disjoint df (mkDF ["year"; "period"; seriesID s] R) Hycol Hpcol).
  simpl in Hm. rewrite (non_key_series _ Hid) in Hm.
  rewrite Hsf. simpl. rewrite Hm; clear Hm.
  2: by left.
  2: right; by left.
  2: { intros c [Hnk Hc]%list_elem_of_filter Hin.
       apply Hnk. rewrite !elem_of_cons in Hin.
       destruct Hin as [->|[->|[->|Hin]]]; [by left|right; by left|done|].
       by apply elem_of_nil in Hin. }
  2: { apply NoDup_app. split; [done|]. split; [|apply NoDup_singleton].
       by intros c Hc ->%list_elem_of_singleton. }
  2: done.
  2: by rewrite HkR.
  eexists. split; [reflexivity|].
  set (rowf := λ k, plain_join (columns df) ["year"; "period"; seriesID s]
                      (find_key (rows df) k) (find_key R k)).
  set (keys := first_seen ((key_of <$> rows df) ++ (key_of <$> R))).
  assert (Hinkeys : ∀ k, k ∈ keys ↔
            (∃ s', s' ∈ done ∧ k ∈ obs_key <$> data s') ∨ k ∈ obs_key <$> data s).
  { intros k. unfold keys. rewrite elem_of_first_seen, elem_of_app, Hunion, HkR. done. }
  assert (Hrow : ∀ k, k ∈ keys →
            key_of (rowf k) = k ∧
            (∀ c, is_Some (rowf k !! c) ↔ c ∈ columns df ++ [seriesID s]) ∧
            (∀ s', s' ∈ done ++ [s] → series_cells s' (rowf k))).
  { intros k Hk. unfold rowf.
    destruct (find_key (rows df) k) as [l|] eqn:HL;
      destruct (find_key R k) as [r|] eqn:HR.
    - (* a row on both sides *)
      apply find_key_Some in HL as [Hl Hkl].
      apply find_key_Some in HR as [Hr Hkr].
      apply (series_rows_inv _ _ _ _ Hvs) in Hr as (o & v & Ho & Hv & ->).
      rewrite key_of_series_row in Hkr by done.
      pose proof (λ c, lookup_join_both (columns df) (seriesID s) l o v c
                         Hid Hidcols (λ c', Hdom l c' Hl)) as Hlook.
      assert (Hkey : key_of (plain_join (columns df) ["year"; "period"; seriesID s]
                               (Some l) (Some (series_row (seriesID s) o v))) = k).
      { unfold key_of at 1. rewrite !Hlook, !decide_False by done. exact Hkl. }
      split; [done|]. split.
      + intros c. rewrite Hlook, elem_of_app, list_elem_of_singleton.
        destruct (decide (c = seriesID s)) as [->|Hc].
        * split; [by right|by eauto].
        * rewrite (Hdom l c Hl). tauto.
      + intros s' [Hs'| ->%list_elem_of_singleton]%elem_of_app.
        * destruct (Hdone s' Hs') as (_ & Hne' & _).
          apply (series_cells_ext s' _ l); [by rewrite Hkey| |by apply Hcells].
          by rewrite Hlook, decide_False.
        * split.
          -- intros o' Ho' Hko'. rewrite Hkey, <- Hkr in Hko'.
             apply (NoDup_fmap_eq obs_key (data s)) in Hko'; [|done..].
             subst o'. exists v. split; [done|]. by rewrite Hlook, decide_True.
          -- rewrite Hkey, <- Hkr. intros Hnot. exfalso. apply Hnot.
             by apply list_elem_of_fmap_2.
    - (* a row on the left only *)
      apply find_key_Some in HL as [Hl Hkl].
      apply find_key_None in HR. rewrite HkR in HR.
      pose proof (λ c, lookup_join_left (columns df) (seriesID s) l c
                         Hid Hidcols (λ c', Hdom l c' Hl)) as Hlook.
      assert (Hkey : key_of (plain_join (columns df) ["year"; "period"; seriesID s]
                               (Some l) None) = k).
      { unfold key_of at 1. rewrite !Hlook, !decide_False by done. exact Hkl. }
      split; [done|]. split.
      + intros c. rewrite Hlook, elem_of_app, list_elem_of_singleton.
        destruct (decide (c = seriesID s)) as [->|Hc].
        * split; [by right|by eauto].
        * rewrite (Hdom l c Hl). tauto.
      + intros s' [Hs'| ->%list_elem_of_singleton]%elem_of_app.
        * destruct (Hdone s' Hs') as (_ & Hne' & _).
          apply (series_cells_ext s' _ l); [by rewrite Hkey| |by apply Hcells].
          by rewrite Hlook, decide_False.
        * split.
          -- intros o' Ho' Hko'. rewrite Hkey in Hko'. exfalso. apply HR.
             rewrite <- Hko'. by apply list_elem_of_fmap_2.
          -- intros _. by rewrite Hlook, decide_True.
    - (* a row on the right only *)
      apply find_key_None in HL.
      apply find_key_Some in HR as [Hr Hkr].
      apply (series_rows_inv _ _ _ _ Hvs) in Hr as (o & v & Ho & Hv & ->).
      rewrite key_of_series_row in Hkr by done.
      pose proof (λ c, lookup_join_right (columns df) (seriesID s) o v c
                         Hid Hidcols) as Hlook.
      assert (Hkey : key_of (plain_join (columns df) ["year"; "period"; seriesID s]
                               None (Some (series_row (seriesID s) o v))) = k).
      { unfold key_of at 1. rewrite !Hlook. rewrite <- Hkr. unfold obs_key.
        f_equal; repeat case_decide; congruence. }
      split; [done|]. split.
      + intros c. rewrite Hlook, elem_of_app, list_elem_of_singleton.
        destruct (decide (c = seriesID s)) as [->|Hc]; [split; [by right|by eauto]|].
        destruct (decide (c = "period")) as [->|Hcp]; [split; [by left|by eauto]|].
        destruct (decide (c = "year")) as [->|Hcy]; [split; [by left|by eauto]|].
        destruct (decide (c ∈ columns df)) as [Hin|Hin].
        * split; [by left|by eauto].
        * split; [by intros ?%is_Some_None|]. by intros [?|?].
      + intros s' [Hs'| ->%list_elem_of_singleton]%elem_of_app.
        * destruct (Hdone s' Hs') as (Hin' & Hne' & Hney & Hnep).
          assert (Hnan : plain_join (columns df) ["year"; "period"; seriesID s]
                           None (Some (series_row (seriesID s) o v)) !! seriesID s'
                         = Some NaN).
          { rewrite Hlook. rewrite !decide_False by done. by rewrite decide_True. }
          split; [|done].
          intros o' Ho' Hko'. rewrite Hkey in Hko'. exfalso. apply HL.
          apply Hunion. exists s'. split; [done|]. rewrite <- Hko'.
          by apply list_elem_of_fmap_2.
        * split.
          -- intros o' Ho' Hko'. rewrite Hkey, <- Hkr in Hko'.
             apply (NoDup_fmap_eq obs_key (data s)) in Hko'; [|done..].
             subst o'. exists v. split; [done|]. by rewrite Hlook, decide_True.
          -- rewrite Hkey, <- Hkr. intros Hnot. exfalso. apply Hnot.
             by apply list_elem_of_fmap_2.
    - (* no row on either side *)
      apply find_key_None in HL. apply find_key_None in HR.
      unfold keys in Hk. rewrite elem_of_first_seen, elem_of_app in Hk.
      destruct Hk as [Hk|Hk]; done. }
  assert (Hkeysrows : key_of <$> (rowf <$> keys) = keys).
  { rewrite <- list_fmap_compose. rewrite <- (list_fmap_id keys) at 2.
    apply list_fmap_ext. intros i k Hi. simpl.
    apply Hrow. by apply list_elem_of_lookup_2 in Hi. }
  unfold table_inv. simpl. fold rowf keys. rewrite Hkeysrows.
  split; [|split; [|split; [|split; [|split]]]].
  - by rewrite Hcols, fmap_app.
  - apply NoDup_app. split; [done|]. split; [|apply NoDup_singleton].
    by intros c Hc ->%list_elem_of_singleton.
  - apply first_seen_NoDup.
  - intros k. rewrite Hinkeys. split.
    + intros [(s' & Hs' & Hk)|Hk].
      * exists s'. split; [|done]. apply elem_of_app. by left.
      * exists s. split; [|done]. apply elem_of_app. right. by left.
    + intros (s' & [Hs'| ->%list_elem_of_singleton]%elem_of_app & Hk); eauto.
  - intros r c (k & -> & Hk)%list_elem_of_fmap. by apply Hrow.
  - intros r s' (k & -> & Hk)%list_elem_of_fmap Hs'. by apply Hrow.
Qed.

(** *** The whole loop *)

Lemma table_inv_skeleton : table_inv [] (mkDF ["year"; "period"] []).
Proof.
  unfold table_inv. simpl. split; [done|]. split.
  { apply NoDup_cons. split; [by intros ?%list_elem_of_singleton|].
    apply NoDup_singleton. }
  split; [apply NoDup_nil_2|]. split.
  { intros k. split.
    - by intros ?%elem_of_nil.
    - by intros (s & ?%elem_of_nil & _). }
  split.
  - by intros r c ?%elem_of_nil.
  - by intros r s ?%elem_of_nil.
Qed.

Lemma merge_loop_inv (rest done : list bls_series) (df : DataFrame) :
  table_inv done df →
  Forall (λ s, data s ≠ []) rest →
  Forall (λ s, Forall (λ o, ∃ v, numeric_cell (obs_value o) = OK v) (data s)) rest →
  Forall (λ s, seriesID s ∉ on_keys) rest →
  NoDup (seriesID <$> done ++ rest) →
  Forall (λ s, NoDup (obs_key <$> data s)) rest →
  ∃ t, merge_loop df rest = OK t ∧ table_inv (done ++ rest) t.
Proof.
  revert done df. induction rest as [|s rest IH]; intros done df Hinv Hne Hvals Hids Hnd Hobs.
  - exists df. rewrite app_nil_r. done.
  - apply Forall_cons in Hne as [Hne1 Hne]. apply Forall_cons in Hvals as [Hvals1 Hvals].
    apply Forall_cons in Hids as [Hid1 Hids]. apply Forall_cons in Hobs as [Hobs1 Hobs].
    assert (Hfresh : seriesID s ∉ seriesID <$> done).
    { rewrite fmap_app, fmap_cons in Hnd. apply NoDup_app in Hnd as (_ & Hdisj & _).
      intros Hin. apply (Hdisj _ Hin). by left. }
    destruct (merge_step done df s Hinv Hne1 Hvals1 Hid1 Hfresh Hobs1)
      as (df' & Hstep & Hinv').
    destruct (IH (done ++ [s]) df' Hinv' Hne Hvals Hids) as (t & Ht & Hinvt); [|done|].
    { by rewrite <- app_assoc. }
    exists t. split.
    + simpl. destruct (series_frame s) as [sdf|e]; [|done]. simpl in *.
      by rewrite Hstep.
    + by rewrite <- app_assoc in Hinvt.
Qed.

(** *** [organize_df] keeps the rows *)

Lemma assign_length (c : string) (f : gmap string cell → result cell)
    (df df' : DataFrame) :
  assign c f df = OK df' → List.length (rows df') = List.length (rows df).
Proof.
  intros [_ Hrows]%assign_OK. symmetry. by eapply Forall2_length.
Qed.

Lemma quarterly_length (df df' : DataFrame) :
  quarterly df = OK df' → List.length (rows df') = List.length (rows df).
Proof.
  unfold quarterly, quarterly_strings. intros Hq.
  invert_bind Hq. invert_bind Ha. invert_bind Ha. invert_bind Ha.
  apply assign_length in Hq, Ha, Ha1. congruence.
Qed.

Lemma monthly_length (df df' : DataFrame) :
  monthly df = OK df' → List.length (rows df') = List.length (rows df).
Proof.
  unfold monthly, monthly_strings. intros Hq.
  invert_bind Hq. invert_bind Ha. invert_bind Ha. invert_bind Ha.
  apply assign_length in Hq, Ha, Ha1. congruence.
Qed.

Lemma rename_column_length (old new : string) (df df' : DataFrame) :
  rename_column old new df = OK df' → List.length (rows df') = List.length (rows df).
Proof.
  unfold rename_column. repeat case_decide; try discriminate.
  intros [= <-]. simpl. apply length_fmap.
Qed.

Lemma organize_df_length (df : DataFrame) (t : IndexedFrame) :
  organize_df df = OK t → List.length (irows t) = List.length (rows df).
Proof.
  unfold organize_df. intros Ht.
  invert_bind Ht. invert_bind Ht. invert_bind Ht.
  invert_bind Ht. invert_bind Ht. invert_bind Ht.
  invert_bind Ht. invert_bind Ht. injection Ht as <-.
  assert (H0 : List.length (rows a0) = List.length (rows df)).
  { destruct (decide (a = "Q"%char)); [by apply quarterly_length|congruence]. }
  assert (H2 : List.length (rows a2) = List.length (rows a0)).
  { destruct (decide (a1 = "M"%char)); [by apply monthly_length|congruence]. }
  assert (H4 : List.length (rows a4) = List.length (rows a2)).
  { destruct (decide (a3 = "A"%char)); [by eapply rename_column_length|congruence]. }
  unfold set_index in Ha5. case_decide; [|discriminate]. injection Ha5 as <-.
  apply sort_index_OK in Ha6 as (_ & _ & Hrows).
  simpl. rewrite length_fmap, Hrows, merge_sort_Permutation. simpl.
  rewrite length_fmap. congruence.
Qed.

(** ** The table builder *)


End MergeProofs.

(** ** The location resolver *)

Section LocationProofs.
Variable qcew_area_codes_df : gmap string string.
Variable oes_area_codes_df : gmap string string.

Lemma locate_all_app (st : loc_state) (pre post : list string) :
  locate_all qcew_area_codes_df oes_area_codes_df st (pre ++ post) =
  locate_all qcew_area_codes_df oes_area_codes_df st pre
    ≫= λ st', locate_all qcew_area_codes_df oes_area_codes_df st' post.
Proof.
  revert st. induction pre as [|s pre IH]; intros st; simpl; [done|].
  destruct (locate _ _ st s) as [st'|e]; simpl; [apply IH|done].
Qed.

Lemma locate_EN (st : loc_state) (series code name : string) :
  prefix2 series = "EN" → search_EN series = Some code →
  qcew_area_codes_df !! code = Some name →
  locate qcew_area_codes_df oes_area_codes_df st series =
  OK (mkLoc (Some code) (<[series := name]> (series_id_locations st))).
Proof.
  intros Hp Hs Hq. unfold locate, loc_name. rewrite Hp. simpl.
  rewrite Hs. simpl. by rewrite Hq.
Qed.

(** An identifier that passes the character class without being EN or LA is
    looked up under whatever [area_code] holds. *)
Lemma locate_leftover (st : loc_state) (series : string) :
  match_EN_LA_class (prefix2 series) = true →
  prefix2 series ≠ "EN" → prefix2 series ≠ "LA" →
  match_OE (prefix2 series) = false →
  locate qcew_area_codes_df oes_area_codes_df st series =
  match area_code st with
  | None => Raise UnboundLocalError
  | Some code =>
      match qcew_area_codes_df !! code with
      | Some name => OK (mkLoc (Some code) (<[series := name]> (series_id_locations st)))
      | None => Raise (KeyError code)
      end
  end.
Proof.
  intros Hclass HEN HLA HOE. unfold locate, loc_name. rewrite Hclass, HOE.
  rewrite decide_False by done. simpl. rewrite decide_False by done. simpl.
  destruct (area_code st) as [code|]; simpl; [|done].
  by destruct (qcew_area_codes_df !! code).
Qed.

(** C7.  An identifier that starts with EN, LA or OE and whose embedded area
    code, as the pattern of its family extracts it, is not a key of the
    reference table of that family: the body of the loop raises the
    [KeyError] of that code, and so does [get_location] on any list in which
    the identifiers before this one are resolved; no mapping is returned. *)
Theorem get_location_unknown_code (pre post : list string) (st : loc_state)
    (series code : string) :
  locate_all qcew_area_codes_df oes_area_codes_df (mkLoc None ∅) pre = OK st →
  (prefix2 series = "EN" ∧ search_EN series = Some code ∧
   qcew_area_codes_df !! code = None) ∨
  (prefix2 series = "LA" ∧ search_LA series = Some code ∧
   qcew_area_codes_df !! code = None) ∨
  (prefix2 series = "OE" ∧ search_OE series = Some code ∧
   oes_area_codes_df !! code = None) →
  locate qcew_area_codes_df oes_area_codes_df st series = Raise (KeyError code) ∧
  get_location qcew_area_codes_df oes_area_codes_df (Some (pre ++ series :: post))
  = Raise (KeyError code).
Proof.
  intros Hpre Hcase.
  assert (Hloc : locate qcew_area_codes_df oes_area_codes_df st series
                 = Raise (KeyError code)).
  { unfold locate, loc_name.
    destruct Hcase as [(Hp & Hs & Hq)|[(Hp & Hs & Hq)|(Hp & Hs & Hq)]];
      rewrite Hp; simpl; rewrite Hs; simpl; by rewrite Hq. }
  split; [done|].
  unfold get_location. rewrite locate_all_app, Hpre. simpl. by rewrite Hloc.
Qed.

(** C8 fails on the code.  The test [re.match('[EN|LA]', series[0:2])] is a
    character class: it accepts every identifier whose first character is E,
    N, L, A or a bar.  The unemployment-rate series LNS14000000 enters the
    branch, neither of the two assignments of [area_code] runs, and the
    lookup reads an unbound variable; after an EN identifier the lookup reads
    the code of that identifier instead and the series is given its
    location. *)
Theorem get_location_LN_not_skipped :
  get_location qcew_area_codes_df oes_area_codes_df (Some ["LNS14000000"])
  = Raise UnboundLocalError ∧
  (∀ name, qcew_area_codes_df !! "04000" = Some name →
     get_location qcew_area_codes_df oes_area_codes_df
       (Some ["ENU0400010010"; "LNS14000000"])
     = OK (<["LNS14000000" := name]> (<["ENU0400010010" := name]> ∅))).
Proof.
  split; [reflexivity|].
  intros name Hname. unfold get_location, locate_all.
  rewrite (locate_EN _ "ENU0400010010" "04000" name) by done. simpl.
  rewrite locate_leftover by done. simpl. rewrite Hname. done.
Qed.

End LocationProofs.

(** ** The constructor and the file round trip *)

Section ClassProofs.
Context `{PandasOps}.
Variable qcew_area_codes_df : gmap string string.
Variable oes_area_codes_df : gmap string string.
Variable bls_api :
  option (list string) → option string → option string → result (list bls_series).

(** The branch of the constructor that reads the file passes [raw_data] to a
    method without parameters. *)
Lemma init_read_branch (fs : gmap string (list bls_series))
    (series_id_list : option (list string)) (start_year end_year json_file : option string)
    (raw_data : option (list bls_series)) :
  negb (truthy raw_data) && truthy series_id_list = false →
  __init__ qcew_area_codes_df oes_area_codes_df bls_api fs series_id_list
    start_year end_year json_file raw_data = Raise TypeError.
Proof. intros Hcond. unfold __init__. rewrite Hcond. done. Qed.

(** C10, as amended.  When [raw_data] is a non-empty list, or when
    [series_id_list] is [None] or empty, the constructor calls
    [_read_bls_file] with an argument and raises [TypeError] before any
    table is built. *)
Theorem init_offline_raises (fs : gmap string (list bls_series))
    (series_id_list : option (list string)) (start_year end_year json_file : option string)
    (raw_data : option (list bls_series)) :
  truthy raw_data = true ∨ truthy series_id_list = false →
  __init__ qcew_area_codes_df oes_area_codes_df bls_api fs series_id_list
    start_year end_year json_file raw_data = Raise TypeError.
Proof.
  intros Hcase. apply init_read_branch.
  destruct Hcase as [-> | ->]; [done|]. apply andb_false_r.
Qed.

(** C9 fails on the code.  [write_to_bls_file] leaves the file it was asked
    to write untouched (it writes the file named [file_name], literally), and
    no constructor call re-loads a file: with the data as [raw_data], or with
    nothing but the name of the file, the constructor raises [TypeError]. *)
Theorem write_then_reload_raises (fs : gmap string (list bls_series)) (self : BlsData)
    (file_name : string) (ids : option (list string)) (start_year end_year : option string) :
  let fs' := write_to_bls_file self (raw_data self) file_name fs in
  (file_name ≠ "file_name" → fs' !! file_name = fs !! file_name) ∧
  (raw_data self ≠ [] →
   __init__ qcew_area_codes_df oes_area_codes_df bls_api fs' ids start_year end_year
     (Some file_name) (Some (raw_data self)) = Raise TypeError) ∧
  __init__ qcew_area_codes_df oes_area_codes_df bls_api fs' None start_year end_year
    (Some file_name) None = Raise TypeError.
Proof.
  simpl. split; [|split].
  - intros Hne. destruct self. simpl. by rewrite lookup_insert_ne.
  - intros Hraw. apply init_read_branch.
    destruct (raw_data self); done.
  - by apply init_read_branch.
Qed.

End ClassProofs.

(** * Further properties *)

(** ** [organize_df]: what it keeps and when it raises *)

Section FurtherFrameProofs.
Context `{PandasOps}.

Lemma first_period_char_inv (df : DataFrame) (c : ascii) :
  first_period_char df = OK c →
  ∃ r rest code, rows df = r :: rest ∧ "period" ∈ columns df ∧
                 cell_at r "period" = Str (String c code).
Proof.
  unfold first_period_char. destruct (rows df) as [|r rest]; [done|].
  case_decide as Hp; [|done].
  destruct (cell_at r "period") as [|[|c' code]| |] eqn:Hcell; try done.
  intros [= <-]. eauto 10.
Qed.

Lemma lookup_value_part (r : gmap string cell) (c : string) :
  value_part r !! c = if decide (c ∈ ["date"; "period"; "year"]) then None else r !! c.
Proof.
  unfold value_part.
  destruct (decide (c = "period")) as [->|Hp].
  { rewrite lookup_delete_eq. rewrite decide_True; [done|]. right. by left. }
  rewrite lookup_delete_ne by done.
  destruct (decide (c = "year")) as [->|Hy].
  { rewrite lookup_delete_eq. rewrite decide_True; [done|]. right. right. by left. }
  rewrite lookup_delete_ne by done.
  destruct (decide (c = "date")) as [->|Hd].
  { rewrite lookup_delete_eq. rewrite decide_True; [done|]. by left. }
  rewrite lookup_delete_ne by done.
  rewrite decide_False; [done|].
  rewrite !elem_of_cons. intros [?|[?|[?|Hn]]]; try done. by apply elem_of_nil in Hn.
Qed.

(** Writing the three consumed columns does not touch the value part. *)
Lemma value_part_insert (r : gmap string cell) (c : string) (v : cell) :
  c ∈ ["date"; "period"; "year"] → value_part (<[c := v]> r) = value_part r.
Proof.
  intros Hc. apply map_eq. intros c'. rewrite !lookup_value_part.
  case_decide as Hc'; [done|].
  rewrite lookup_insert_ne; [done|]. by intros ->.
Qed.

Lemma value_part_delete (r : gmap string cell) (c : string) :
  c ∈ ["date"; "period"; "year"] → value_part (delete c r) = value_part r.
Proof.
  intros Hc. apply map_eq. intros c'. rewrite !lookup_value_part.
  case_decide as Hc'; [done|].
  rewrite lookup_delete_ne; [done|]. by intros ->.
Qed.

Lemma value_columns_with_date (cols : list string) :
  value_columns (with_date cols) = value_columns cols.
Proof.
  unfold with_date, value_columns. case_decide; [done|].
  rewrite filter_app, filter_cons_False, filter_nil, app_nil_r; [done|].
  intros Hn. apply Hn. by left.
Qed.

Lemma filter_iff {A : Type} (P Q : A → Prop) `{∀ x, Decision (P x)}
    `{∀ x, Decision (Q x)} (l : list A) :
  (∀ x, P x ↔ Q x) → filter P l = filter Q l.
Proof.
  intros HPQ. induction l as [|x l IH]; [done|].
  destruct (decide (P x)) as [HP|HP].
  - rewrite (filter_cons_True P), (filter_cons_True Q), IH; [done| |done].
    by apply HPQ.
  - rewrite (filter_cons_False P), (filter_cons_False Q); [done| |done].
    by rewrite <- HPQ.
Qed.

Lemma Forall2_value_part (l l' : list (gmap string cell)) :
  Forall2 (λ r r', value_part r' = value_part r) l l' →
  value_part <$> l' = value_part <$> l.
Proof. induction 1 as [|r r' l l' Hr _ IH]; [done|]. by rewrite !fmap_cons, Hr, IH. Qed.

Lemma quarterly_values (df df' : DataFrame) :
  "period" ∈ columns df → quarterly df = OK df' →
  value_columns (columns df') = value_columns (columns df) ∧
  value_part <$> rows df' = value_part <$> rows df.
Proof.
  intros Hp (_ & -> & Hrows)%quarterly_OK; [|done].
  split; [apply value_columns_with_date|].
  apply Forall2_value_part. eapply Forall2_impl; [exact Hrows|].
  intros r r' (d & _ & ->). unfold quarter_row.
  rewrite !value_part_insert; [done|right; by left|by left..].
Qed.

Lemma monthly_values (df df' : DataFrame) :
  "period" ∈ columns df → monthly df = OK df' →
  value_columns (columns df') = value_columns (columns df) ∧
  value_part <$> rows df' = value_part <$> rows df.
Proof.
  intros Hp (_ & -> & Hrows)%monthly_OK; [|done].
  split; [apply value_columns_with_date|].
  apply Forall2_value_part. eapply Forall2_impl; [exact Hrows|].
  intros r r' (d & _ & ->). unfold month_row.
  rewrite !value_part_insert; [done|right; by left|by left..].
Qed.

Lemma rename_year_values (df df' : DataFrame) :
  rename_column "year" "date" df = OK df' →
  value_columns (columns df') = value_columns (columns df) ∧
  value_part <$> rows df' = value_part <$> rows df.
Proof.
  unfold rename_column. case_decide as Hy; [|done]. case_decide as Hd; [done|].
  intros [= <-]. simpl. split.
  - unfold value_columns. clear Hy Hd. induction (columns df) as [|c cols IH]; [done|].
    rewrite fmap_cons. cbv beta. destruct (decide (c = "year")) as [->|Hc].
    + rewrite !filter_cons_False; [exact IH| |].
      * intros Hn. apply Hn. right. right. by left.
      * intros Hn. apply Hn. by left.
    + destruct (decide (c ∈ ["date"; "period"; "year"])) as [Hin|Hin].
      * rewrite !filter_cons_False by (by intros Hn). exact IH.
      * rewrite !filter_cons_True by done. by rewrite IH.
  - rewrite <- list_fmap_compose. apply list_fmap_ext. intros i r _. simpl.
    rewrite value_part_insert by (by left).
    apply value_part_delete. right. right. by left.
Qed.

(** The table [organize_df] returns, in terms of the frame that reaches
    [set_index]. *)
Lemma finish_values (df : DataFrame) (t : IndexedFrame) :
  (t1 ← set_index "date" df; t2 ← sort_index t1;
   OK (drop_columns ["period"; "year"] t2)) = OK t →
  index_name t = "date" ∧
  icolumns t = value_columns (columns df) ∧
  irows t ≡ₚ (λ r, (cell_at r "date", value_part r)) <$> rows df.
Proof.
  intros Ht. invert_bind Ht. invert_bind Ht. injection Ht as <-.
  unfold set_index in Ha. case_decide; [|done]. injection Ha as <-.
  apply sort_index_OK in Ha0 as (Hname & Hcols & Hrows). simpl in *.
  split; [done|]. split.
  - rewrite Hcols. unfold value_columns. rewrite list_filter_filter.
    apply filter_iff. intros c. rewrite !not_elem_of_cons. tauto.
  - rewrite Hrows, merge_sort_Permutation, <- list_fmap_compose. done.
Qed.

(** What [organize_df] keeps, whichever branch runs. *)
Lemma organize_df_values (df : DataFrame) (t : IndexedFrame) :
  organize_df df = OK t →
  icolumns t = value_columns (columns df) ∧
  snd <$> irows t ≡ₚ value_part <$> rows df.
Proof.
  unfold organize_df. intros Ht.
  invert_bind Ht. invert_bind Ht. invert_bind Ht.
  invert_bind Ht. invert_bind Ht. invert_bind Ht.
  apply first_period_char_inv in Ha as (_ & _ & _ & _ & Hp & _).
  apply first_period_char_inv in Ha1 as (_ & _ & _ & _ & Hp1 & _).
  assert (H0 : value_columns (columns a0) = value_columns (columns df) ∧
               value_part <$> rows a0 = value_part <$> rows df).
  { destruct (decide (a = "Q"%char)); [by apply quarterly_values|].
    by injection Ha0 as <-. }
  assert (H2 : value_columns (columns a2) = value_columns (columns a0) ∧
               value_part <$> rows a2 = value_part <$> rows a0).
  { destruct (decide (a1 = "M"%char)); [by apply monthly_values|].
    by injection Ha2 as <-. }
  assert (H4 : value_columns (columns a4) = value_columns (columns a2) ∧
               value_part <$> rows a4 = value_part <$> rows a2).
  { destruct (decide (a3 = "A"%char)); [by apply rename_year_values|].
    by injection Ha4 as <-. }
  apply finish_values in Ht as (_ & Hcols & Hrows).
  destruct H0 as [H0c H0r], H2 as [H2c H2r], H4 as [H4c H4r].
  split; [congruence|].
  rewrite Hrows, <- list_fmap_compose, <- H0r, <- H2r, <- H4r. done.
Qed.

(** Whatever branch runs, [organize_df] touches no value: the columns of
    the table it returns are those of the frame without [date], [period]
    and [year], in the same order, and its rows are the rows of the frame
    without these three cells, up to the order the sort gives them. *)
Theorem organize_df_keeps_values (df : DataFrame) (t : IndexedFrame) :
  organize_df df = OK t →
  icolumns t = value_columns (columns df) ∧
  snd <$> irows t ≡ₚ value_part <$> rows df ∧
  List.length (irows t) = List.length (rows df).
Proof.
  intros Ht. destruct (organize_df_values df t Ht) as [Hcols Hrows].
  split; [done|]. split; [done|].
  apply Permutation_length in Hrows. by rewrite !length_fmap in Hrows.
Qed.

(** A period code that starts with none of Q, M and A (the semi-annual codes
    S01 to S03 of the BLS, for one) leaves the frame without a [date]
    column, and [set_index] raises the [KeyError] of that label. *)
Theorem organize_df_unknown_granularity (df : DataFrame) (c : ascii) :
  first_period_char df = OK c →
  c ≠ "Q"%char → c ≠ "M"%char → c ≠ "A"%char →
  "date" ∉ columns df →
  organize_df df = Raise (KeyError "date").
Proof.
  intros Hc HQ HM HA Hd. unfold organize_df.
  rewrite Hc. simpl. rewrite decide_False by done. simpl.
  rewrite Hc. simpl. rewrite decide_False by done. simpl.
  rewrite Hc. simpl. rewrite decide_False by done. simpl.
  unfold set_index. by rewrite decide_False.
Qed.

(** An annual table, with a [year] column and no [date] column: the year
    column becomes the index, named [date]; the call returns when the years
    are all strings or all numbers, and raises [TypeError] when the sort has
    to compare years of different kinds. *)
Theorem organize_df_annual (df : DataFrame) :
  first_period_char df = OK "A"%char →
  "year" ∈ columns df → "date" ∉ columns df →
  (same_kind ((λ r, cell_at r "year") <$> rows df) = true →
   ∃ t, organize_df df = OK t ∧ index_name t = "date" ∧
        index t ≡ₚ (λ r, cell_at r "year") <$> rows df) ∧
  (same_kind ((λ r, cell_at r "year") <$> rows df) = false →
   organize_df df = Raise TypeError).
Proof.
  intros HA Hy Hd. rewrite (annual_branch df HA).
  destruct (rename_column "year" "date" df) as [df'|e] eqn:Hren.
  2: { unfold rename_column in Hren. by rewrite decide_True, decide_False in Hren. }
  pose proof (rename_year_date _ _ Hren) as [_ Hcol].
  assert (Hdate : "date" ∈ columns df').
  { unfold rename_column in Hren. rewrite decide_True, decide_False in Hren by done.
    injection Hren as <-. simpl.
    apply list_elem_of_fmap. exists "year". by rewrite decide_True. }
  simpl. split.
  - intros Hkind. destruct (finish_total df') as [t Ht]; [done|by rewrite Hcol|].
    exists t. split; [done|].
    pose proof (finish_values _ _ Ht) as (Hname & _ & _).
    apply finish_OK in Ht as [_ Hperm]. split; [done|]. by rewrite Hperm, Hcol.
  - intros Hkind. unfold set_index. rewrite decide_True by done. simpl.
    unfold sort_index.
    replace (index _) with (date_column df').
    + by rewrite Hcol, Hkind.
    + unfold index, date_column. simpl. by rewrite <- list_fmap_compose.
Qed.

(** A quarterly, monthly or annual table without a [year] column:
    [organize_df] raises the [KeyError] of that label. *)
Theorem organize_df_missing_year (df : DataFrame) (c : ascii) :
  first_period_char df = OK c →
  c = "Q"%char ∨ c = "M"%char ∨ c = "A"%char →
  "year" ∉ columns df →
  organize_df df = Raise (KeyError "year").
Proof.
  intros Hc Hcase Hy.
  pose proof (first_period_char_inv df c Hc) as (_ & _ & _ & _ & Hp & _).
  unfold organize_df.
  destruct Hcase as [-> | [-> | ->] ]; repeat (rewrite ?Hc; simpl).
  - unfold quarterly, quarterly_strings, require_column.
    rewrite decide_True by done. simpl. rewrite assign_pure. simpl.
    rewrite decide_True by done. by rewrite decide_False.
  - unfold monthly, monthly_strings, require_column.
    rewrite decide_True by done. simpl. rewrite assign_pure. simpl.
    rewrite decide_True by done. by rewrite decide_False.
  - unfold rename_column. by rewrite decide_False.
Qed.

(** What the inspection of the first row raises on a non-empty frame,
    whatever the rows that follow: [KeyError] without a [period] column,
    [IndexError] on an empty period code. *)
Theorem organize_df_first_row_errors (df : DataFrame) (r : gmap string cell)
    (rest : list (gmap string cell)) :
  rows df = r :: rest →
  ("period" ∉ columns df → organize_df df = Raise (KeyError "period")) ∧
  ("period" ∈ columns df → cell_at r "period" = Str "" →
   organize_df df = Raise IndexError).
Proof.
  intros Hrows. unfold organize_df, first_period_char. rewrite Hrows.
  split.
  - intros Hp. by rewrite decide_False.
  - intros Hp Hcell. rewrite decide_True by done. by rewrite Hcell.
Qed.

Lemma traverse_Raise {A B : Type} (f : A → result B) (e : exn) (l : list A) :
  Forall (λ x, f x = Raise e ∨ ∃ y, f x = OK y) l →
  Exists (λ x, f x = Raise e) l →
  traverse f l = Raise e.
Proof.
  induction 1 as [|x l Hx _ IH]; intros Hex; [by inversion Hex|].
  simpl. destruct Hx as [Hx|[y Hx]]; rewrite Hx; [done|].
  inversion Hex as [? ? Hbad|? ? Hbad]; subst; [congruence|].
  by rewrite (IH Hbad).
Qed.

Lemma parse_dates_Raise (fmt : option string) (str_of : gmap string cell → string)
    (pre : gmap string cell → gmap string cell) (cols : list string)
    (rs : list (gmap string cell)) :
  (∀ r, cell_at (pre r) "date" = Str (str_of r)) →
  Exists (λ r, to_datetime fmt (str_of r) = None) rs →
  assign "date" (λ r, to_datetime_cell fmt (cell_at r "date")) (mkDF cols (pre <$> rs))
  = Raise ValueError.
Proof.
  intros Hpre Hex. unfold assign. simpl.
  rewrite (traverse_Raise _ ValueError); [done| |].
  - apply Forall_fmap, Forall_forall. intros r _. simpl. rewrite Hpre. simpl.
    destruct (to_datetime fmt (str_of r)); simpl; eauto.
  - apply Exists_fmap. eapply Exists_impl; [exact Hex|].
    intros r Hr. simpl. rewrite Hpre. simpl. by rewrite Hr.
Qed.

(** A quarterly table with a row whose string [<year>-<period>] pandas
    cannot read as a date (a row of another granularity, or the annual
    average Q05): [organize_df] raises [ValueError] and returns no table. *)
Theorem organize_df_unparsable_quarter (df : DataFrame) (r0 : gmap string cell)
    (rest : list (gmap string cell)) (code : string) :
  rows df = r0 :: rest →
  "period" ∈ columns df → "year" ∈ columns df →
  cell_at r0 "period" = Str (String "Q" code) →
  Exists (λ r, to_datetime None (quarter_string r) = None) (rows df) →
  organize_df df = Raise ValueError.
Proof.
  intros Hrows Hp Hy Hc Hex.
  rewrite (quarterly_branch df r0 rest code Hrows Hp Hc).
  unfold quarterly. rewrite quarterly_strings_eq by done. simpl.
  rewrite (parse_dates_Raise None quarter_string quarter_row); [done| |done].
  intros r. apply cell_at_insert_eq.
Qed.

(** The same for a monthly table (the annual average M13, for one, is no
    month of [%m]). *)
Theorem organize_df_unparsable_month (df : DataFrame) (r0 : gmap string cell)
    (rest : list (gmap string cell)) (code : string) :
  rows df = r0 :: rest →
  "period" ∈ columns df → "year" ∈ columns df →
  cell_at r0 "period" = Str (String "M" code) →
  Exists (λ r, to_datetime (Some "%m-%Y") (month_string r) = None) (rows df) →
  organize_df df = Raise ValueError.
Proof.
  intros Hrows Hp Hy Hc Hex.
  rewrite (monthly_branch df r0 rest code Hrows Hp Hc).
  unfold monthly. rewrite monthly_strings_eq by done. simpl.
  rewrite (parse_dates_Raise (Some "%m-%Y") month_string month_row); [done| |done].
  intros r. apply cell_at_insert_eq.
Qed.

End FurtherFrameProofs.

(** ** [_construct_df]: errors of the loop and shape of the result *)

Section FurtherMergeProofs.
Context `{PandasOps}.

Lemma merge_loop_app (df : DataFrame) (pre post : list bls_series) :
  merge_loop df (pre ++ post) = merge_loop df pre ≫= λ df', merge_loop df' post.
Proof.
  revert df. induction pre as [|s pre IH]; intros df; [done|].
  simpl. destruct (series_frame s) as [sdf|e]; [|done]. simpl.
  destruct (merge df sdf) as [df'|e]; [|done]. simpl. apply IH.
Qed.

(** The loop stops at the first series whose frame cannot be built. *)
Lemma merge_loop_stops (pre post : list bls_series) (s : bls_series)
    (df : DataFrame) (e : exn) :
  merge_loop (mkDF ["year"; "period"] []) pre = OK df →
  series_frame s = Raise e →
  merged_frame (pre ++ s :: post) = Raise e ∧
  _construct_df (pre ++ s :: post) = Raise e.
Proof.
  intros Hpre Hs.
  assert (Hm : merged_frame (pre ++ s :: post) = Raise e).
  { unfold merged_frame. rewrite merge_loop_app, Hpre. simpl. by rewrite Hs. }
  split; [done|]. unfold _construct_df. by rewrite Hm.
Qed.

(** A series without observations: the selection of the three columns from
    its empty frame raises [KeyError], and the loop and [_construct_df] with
    it, once the series before it are merged. *)
Theorem construct_df_empty_series (pre post : list bls_series) (s : bls_series)
    (df : DataFrame) :
  merge_loop (mkDF ["year"; "period"] []) pre = OK df →
  data s = [] →
  merged_frame (pre ++ s :: post) = Raise (KeyError "year") ∧
  _construct_df (pre ++ s :: post) = Raise (KeyError "year").
Proof.
  intros Hpre Hdata. apply (merge_loop_stops pre post s df); [done|].
  unfold series_frame. by rewrite Hdata.
Qed.

(** A series with a value that is not numeric, or whose identifier is
    [year] or [period]: [ValueError], from [pd.to_numeric] or from the
    merge; nothing is dropped or coerced in silence. *)
Theorem construct_df_value_error (pre post : list bls_series) (s : bls_series)
    (df : DataFrame) :
  merge_loop (mkDF ["year"; "period"] []) pre = OK df →
  data s ≠ [] →
  Forall json_value (data s) →
  Exists bad_value (data s) ∨ seriesID s ∈ on_keys →
  merged_frame (pre ++ s :: post) = Raise ValueError ∧
  _construct_df (pre ++ s :: post) = Raise ValueError.
Proof.
  intros Hpre Hne Hjson Hcase. apply (merge_loop_stops pre post s df); [done|].
  unfold series_frame. destruct (data s) as [|o l] eqn:Hdata; [done|].
  assert (Hall : Forall (λ o', numeric_cell (obs_value o') = Raise ValueError ∨
                               ∃ v, numeric_cell (obs_value o') = OK v) (o :: l)).
  { eapply Forall_impl; [exact Hjson|]. intros o' Ho'. unfold json_value in Ho'.
    destruct (obs_value o') as [|text|v|t]; simpl; eauto.
    - destruct (to_numeric text); eauto.
    - by destruct (Ho' t). }
  destruct (traverse (λ o', numeric_cell (obs_value o')) (o :: l)) as [vals|e] eqn:Htr.
  - destruct Hcase as [Hbad|Hid].
    + rewrite (traverse_Raise _ ValueError) in Htr; [done|done|].
      eapply Exists_impl; [exact Hbad|].
      intros o' (text & Hv & Hnone). rewrite Hv. simpl. by rewrite Hnone.
    + simpl. by rewrite decide_True.
  - simpl. f_equal.
    clear Hcase Hdata Hne Hjson. revert e Htr.
    induction Hall as [|o' l' Ho' _ IH]; intros e Htr; [done|].
    simpl in Htr. destruct Ho' as [Ho'|[v Ho']]; rewrite Ho' in Htr.
    + by injection Htr as <-.
    + destruct (traverse _ l') as [vals|e'] eqn:Hl'; [done|].
      injection Htr as <-. by apply IH.
Qed.

Lemma value_columns_series (ids : list string) :
  value_columns ("year" :: "period" :: ids) = value_columns ids.
Proof.
  unfold value_columns. rewrite !filter_cons_False; [done| |].
  - intros Hn. apply Hn. right. by left.
  - intros Hn. apply Hn. right. right. by left.
Qed.

Lemma elem_of_all_keys (raw : list bls_series) (k : option cell * option cell) :
  k ∈ all_keys raw ↔ ∃ s, s ∈ raw ∧ k ∈ obs_key <$> data s.
Proof.
  unfold all_keys. rewrite list_elem_of_bind. split.
  - intros (s & Hk & Hs). eauto.
  - intros (s & Hs & Hk). eauto.
Qed.

(** The shape of the table [_construct_df] returns, for raw data as in C1:
    as many rows as there are distinct (year, period) keys in the raw data,
    and the series identifiers as columns, in the order of the series (an
    identifier [date] apart, which the index takes). *)
Theorem construct_df_shape (raw : list bls_series) (t : IndexedFrame) :
  Forall (λ s, data s ≠ []) raw →
  Forall (λ s, Forall (λ o, ∃ v, numeric_cell (obs_value o) = OK v) (data s)) raw →
  Forall (λ s, seriesID s ∉ on_keys) raw →
  NoDup (seriesID <$> raw) →
  Forall (λ s, NoDup (obs_key <$> data s)) raw →
  _construct_df raw = OK t →
  List.length (irows t) = List.length (remove_dups (all_keys raw)) ∧
  icolumns t = value_columns (seriesID <$> raw).
Proof.
  intros Hne Hvals Hids Hnd Hobs Ht.
  destruct (merge_loop_inv raw [] _ table_inv_skeleton Hne Hvals Hids Hnd Hobs)
    as (df & Hdf & Hcols & _ & Hkeys & Hunion & _ & _).
  unfold _construct_df, merged_frame in Ht. rewrite Hdf in Ht. simpl in Ht.
  pose proof (organize_df_length df t Ht) as Hlen.
  pose proof (organize_df_values df t Ht) as [Hc _].
  split.
  - rewrite Hlen, <- (length_fmap key_of). apply Permutation_length.
    apply NoDup_Permutation; [done|apply NoDup_remove_dups|].
    intros k. rewrite elem_of_remove_dups, elem_of_all_keys. apply Hunion.
  - by rewrite Hc, Hcols, value_columns_series.
Qed.

End FurtherMergeProofs.

(** ** [get_location]: what it resolves and what it raises *)

Section FurtherLocationProofs.
Variable qcew_area_codes_df : gmap string string.
Variable oes_area_codes_df : gmap string string.

Lemma locate_resolved (st : loc_state) (series name : string) :
  resolve qcew_area_codes_df oes_area_codes_df series = Some name →
  ∃ code, locate qcew_area_codes_df oes_area_codes_df st series =
          OK (mkLoc (Some code) (<[series := name]> (series_id_locations st))).
Proof.
  unfold resolve. intros Hres.
  destruct (decide (prefix2 series = "EN")) as [Hp|HEN].
  { destruct (search_EN series) as [code|] eqn:Hs; [|done]. simpl in Hres.
    exists code. by apply locate_EN. }
  destruct (decide (prefix2 series = "LA")) as [Hp|HLA].
  { destruct (search_LA series) as [code|] eqn:Hs; [|done]. simpl in Hres.
    exists code. unfold locate, loc_name. rewrite Hp. simpl.
    rewrite Hs. simpl. by rewrite Hres. }
  destruct (decide (prefix2 series = "OE")) as [Hp|HOE]; [|done].
  destruct (search_OE series) as [code|] eqn:Hs; [|done]. simpl in Hres.
  exists code. unfold locate, loc_name. rewrite Hp. simpl.
  rewrite Hs. simpl. by rewrite Hres.
Qed.

Lemma locate_passed_over (st : loc_state) (series : string) :
  passed_over series →
  locate qcew_area_codes_df oes_area_codes_df st series = OK st.
Proof. intros [Hclass HOE]. unfold locate. by rewrite Hclass, HOE. Qed.

Lemma resolve_passed_over (series : string) :
  passed_over series → resolve qcew_area_codes_df oes_area_codes_df series = None.
Proof.
  intros [Hclass HOE]. unfold resolve.
  destruct (decide (prefix2 series = "EN")) as [Hp|_].
  { by rewrite Hp in Hclass. }
  destruct (decide (prefix2 series = "LA")) as [Hp|_].
  { by rewrite Hp in Hclass. }
  destruct (decide (prefix2 series = "OE")) as [Hp|_]; [|done].
  by rewrite Hp in HOE.
Qed.

Lemma locate_all_resolves (ids : list string) (st : loc_state) :
  Forall (λ s, passed_over s ∨
               is_Some (resolve qcew_area_codes_df oes_area_codes_df s)) ids →
  ∃ st', locate_all qcew_area_codes_df oes_area_codes_df st ids = OK st' ∧
    ∀ s, series_id_locations st' !! s =
         match resolve qcew_area_codes_df oes_area_codes_df s with
         | Some name => if decide (s ∈ ids) then Some name
                        else series_id_locations st !! s
         | None => series_id_locations st !! s
         end.
Proof.
  revert st. induction ids as [|s0 ids IH]; intros st Hids.
  - exists st. split; [done|]. intros s.
    destruct (resolve _ _ s); [|done]. rewrite decide_False; [done|apply not_elem_of_nil].
  - apply Forall_cons in Hids as [Hs0 Hids]. simpl.
    destruct Hs0 as [Hpass|[name Hname]].
    + rewrite (locate_passed_over st s0 Hpass). simpl.
      destruct (IH st Hids) as (st' & Hall & Hlook). exists st'. split; [done|].
      intros s. rewrite Hlook. destruct (resolve _ _ s) as [n|] eqn:Hres; [|done].
      destruct (decide (s ∈ ids)) as [Hin|Hin].
      * rewrite decide_True; [done|by right].
      * rewrite decide_False; [done|].
        intros [->|Hin']%elem_of_cons; [|done].
        by rewrite (resolve_passed_over s0 Hpass) in Hres.
    + destruct (locate_resolved st s0 name Hname) as [code Hloc].
      rewrite Hloc. simpl.
      destruct (IH (mkLoc (Some code) (<[s0 := name]> (series_id_locations st))) Hids)
        as (st' & Hall & Hlook).
      exists st'. split; [done|]. intros s. rewrite Hlook. simpl.
      destruct (decide (s = s0)) as [->|Hne].
      * rewrite Hname, lookup_insert_eq.
        rewrite (decide_True (P := s0 ∈ s0 :: ids)) by (by left).
        by destruct (decide (s0 ∈ ids)).
      * rewrite lookup_insert_ne by done.
        destruct (resolve _ _ s); [|done].
        destruct (decide (s ∈ ids)) as [Hin|Hin].
        -- rewrite decide_True; [done|by right].
        -- rewrite decide_False; [done|]. by intros [?|?]%elem_of_cons.
Qed.

(** On a list in which every identifier is either passed over by both
    tests or carries a code that its family's pattern extracts and its
    family's table knows, [get_location] returns, and the dictionary maps
    each identifier of the list to the name of its code and holds nothing
    else. *)
Theorem get_location_resolves (ids : list string) :
  Forall (λ s, passed_over s ∨
               is_Some (resolve qcew_area_codes_df oes_area_codes_df s)) ids →
  ∃ m, get_location qcew_area_codes_df oes_area_codes_df (Some ids) = OK m ∧
       ∀ s, m !! s = if decide (s ∈ ids)
                     then resolve qcew_area_codes_df oes_area_codes_df s
                     else None.
Proof.
  intros Hids. destruct (locate_all_resolves ids (mkLoc None ∅) Hids)
    as (st' & Hall & Hlook).
  exists (series_id_locations st'). unfold get_location. rewrite Hall.
  split; [done|]. intros s. rewrite Hlook. simpl. rewrite lookup_empty.
  destruct (resolve _ _ s) as [name|] eqn:Hres.
  - by destruct (decide (s ∈ ids)).
  - by destruct (decide (s ∈ ids)).
Qed.

(** An identifier that starts with EN, LA or OE and does not have the shape
    of its family's pattern: the search finds nothing and [.group(1)] on
    its result raises [AttributeError], once the identifiers before it are
    resolved. *)
Theorem get_location_no_match (pre post : list string) (st : loc_state)
    (series : string) :
  locate_all qcew_area_codes_df oes_area_codes_df (mkLoc None ∅) pre = OK st →
  (prefix2 series = "EN" ∧ search_EN series = None) ∨
  (prefix2 series = "LA" ∧ search_LA series = None) ∨
  (prefix2 series = "OE" ∧ search_OE series = None) →
  get_location qcew_area_codes_df oes_area_codes_df (Some (pre ++ series :: post))
  = Raise AttributeError.
Proof.
  intros Hpre Hcase. unfold get_location. rewrite locate_all_app, Hpre. simpl.
  assert (Hloc : locate qcew_area_codes_df oes_area_codes_df st series
                 = Raise AttributeError).
  { unfold locate.
    destruct Hcase as [(Hp & Hs)|[(Hp & Hs)|(Hp & Hs)]];
      rewrite Hp; simpl; by rewrite Hs. }
  by rewrite Hloc.
Qed.

Lemma locate_inv (st st' : loc_state) (series : string) :
  locate qcew_area_codes_df oes_area_codes_df st series = OK st' →
  series_id_locations st' = series_id_locations st ∨
  ∃ name code,
    (qcew_area_codes_df !! code = Some name ∨ oes_area_codes_df !! code = Some name) ∧
    series_id_locations st' = <[series := name]> (series_id_locations st).
Proof.
  unfold locate. intros Hloc. apply bind_OK in Hloc as (st1 & H1 & H2).
  assert (Hfirst : series_id_locations st1 = series_id_locations st ∨
                   ∃ name code, qcew_area_codes_df !! code = Some name ∧
                     series_id_locations st1 = <[series := name]> (series_id_locations st)).
  { destruct (match_EN_LA_class (prefix2 series)); [|injection H1 as <-; by left].
    apply bind_OK in H1 as (ac1 & _ & H1). apply bind_OK in H1 as (ac2 & _ & H1).
    destruct ac2 as [code|]; [|done].
    apply bind_OK in H1 as (name & Hname & H1). injection H1 as <-.
    right. exists name, code. split; [|done].
    unfold loc_name in Hname. destruct (qcew_area_codes_df !! code); [|done].
    by injection Hname as ->. }
  destruct (match_OE (prefix2 series)).
  - apply bind_OK in H2 as (code & _ & H2).
    apply bind_OK in H2 as (name & Hname & H2). injection H2 as <-. simpl.
    right. exists name, code. split.
    + right. unfold loc_name in Hname. destruct (oes_area_codes_df !! code); [|done].
      by injection Hname as ->.
    + destruct Hfirst as [->|(n1 & c1 & _ & ->)]; [done|].
      by rewrite insert_insert_eq.
  - injection H2 as <-. destruct Hfirst as [?|(name & code & ? & ?)]; eauto 10.
Qed.

(** Whatever the list, a dictionary returned by [get_location] has entries
    for identifiers of the list only, and every name in it is a name of one
    of the two reference tables. *)
Theorem get_location_entries (ids : list string) (m : gmap string string)
    (series name : string) :
  get_location qcew_area_codes_df oes_area_codes_df (Some ids) = OK m →
  m !! series = Some name →
  series ∈ ids ∧
  ∃ code, qcew_area_codes_df !! code = Some name ∨ oes_area_codes_df !! code = Some name.
Proof.
  unfold get_location. intros (st' & Hall & ->)%fmap_result_OK.
  assert (Hgen : ∀ ids st st',
            locate_all qcew_area_codes_df oes_area_codes_df st ids = OK st' →
            series_id_locations st' !! series = Some name →
            series_id_locations st !! series = Some name ∨
            (series ∈ ids ∧
             ∃ code, qcew_area_codes_df !! code = Some name ∨
                     oes_area_codes_df !! code = Some name)).
  { clear. intros ids. induction ids as [|s0 ids IH]; intros st st' Hall Hlook.
    - injection Hall as <-. by left.
    - simpl in Hall. apply bind_OK in Hall as (st1 & Hloc & Hall).
      destruct (IH st1 st' Hall Hlook) as [Hst1|[Hin Hcode]].
      + apply locate_inv in Hloc as [Heq|(n & code & Hcode & Heq)].
        * left. by rewrite <- Heq.
        * rewrite Heq in Hst1. destruct (decide (s0 = series)) as [->|Hne].
          -- rewrite lookup_insert_eq in Hst1. injection Hst1 as ->.
             right. split; [by left|eauto].
          -- rewrite lookup_insert_ne in Hst1 by done. by left.
      + right. split; [by right|done]. }
  intros Hlook. destruct (Hgen ids _ _ Hall Hlook) as [Hempty|Hin]; [|done].
  simpl in Hempty. by rewrite lookup_empty in Hempty.
Qed.

End FurtherLocationProofs.

(** ** The patterns of [get_location] *)

Lemma match_classes_inv (classes : list (ascii → bool)) (s m rest : string) :
  match_classes classes s = Some (m, rest) →
  s = m +:+ rest ∧ String.length m = List.length classes ∧
  Forall2 (λ p c, p c = true) classes (list_ascii_of_string m).
Proof.
  revert s m rest. induction classes as [|p classes IH]; intros s m rest; simpl.
  - intros [= <- <-]. split; [done|]. split; [done|]. constructor.
  - destruct s as [|c s]; [done|]. destruct (p c) eqn:Hp; [|done].
    destruct (match_classes classes s) as [[m' rest']|] eqn:Hs; [|done].
    intros [= <- <-]. destruct (IH _ _ _ Hs) as (-> & Hlen & Hall).
    split; [done|]. split; [by rewrite <- Hlen|]. simpl. by constructor.
Qed.

Lemma substring_0_app (b c : string) : substring 0 (String.length b) (b +:+ c) = b.
Proof. induction b as [|x b IH]; simpl; [by destruct c|]. by rewrite IH. Qed.

Lemma substring_skip_app (a s : string) (n : nat) :
  substring (String.length a) n (a +:+ s) = substring 0 n s.
Proof. induction a as [|x a IH]; simpl; [done|]. exact IH. Qed.

Lemma substring_middle (a b c : string) :
  substring (String.length a) (String.length b) (a +:+ b +:+ c) = b.
Proof. by rewrite substring_skip_app, substring_0_app. Qed.

Lemma skip_upper_suffix (s : string) : ∃ letters, s = letters +:+ skip_upper s.
Proof.
  induction s as [|c s [letters IH]]; simpl.
  - by exists "".
  - destruct (is_upper c).
    + exists (String c letters).
      change (String c s = String c (letters +:+ skip_upper s)). by f_equal.
    + by exists "".
Qed.

Lemma all_digits (m : string) (classes : list (ascii → bool)) :
  Forall (λ p, p = is_digit) classes →
  Forall2 (λ p c, p c = true) classes (list_ascii_of_string m) →
  Forall (λ c, is_digit c = true) (list_ascii_of_string m).
Proof.
  intros Hcl Hall. revert Hcl. induction Hall as [|p c cl cs Hp _ IH]; intros Hcl.
  - constructor.
  - apply Forall_cons in Hcl as [-> Hcl]. constructor; [done|by apply IH].
Qed.

(** Where the three patterns find the area code: the five characters at
    offset 3 of an EN identifier, the five digits at offset 5 of an LA
    identifier, and the seven digits that follow the leading capital letters
    of an OE identifier. *)
Theorem search_positions (series code : string) :
  (search_EN series = Some code →
   code = substring 3 5 series ∧ String.length code = 5%nat) ∧
  (search_LA series = Some code →
   code = substring 5 5 series ∧ String.length code = 5%nat ∧
   Forall (λ c, is_digit c = true) (list_ascii_of_string code)) ∧
  (search_OE series = Some code →
   (∃ letters rest, series = letters +:+ code +:+ rest ∧
                    skip_upper series = code +:+ rest) ∧
   String.length code = 7%nat ∧
   Forall (λ c, is_digit c = true) (list_ascii_of_string code)).
Proof.
  split; [|split].
  - unfold search_EN.
    destruct (match_classes [is_upper; is_upper; is_upper] series)
      as [[pre rest]|] eqn:Hpre; [|done].
    destruct (match_classes _ rest) as [[m rest']|] eqn:Hm; [|done].
    intros [= <-].
    apply match_classes_inv in Hpre as (-> & Hlen & _).
    apply match_classes_inv in Hm as (-> & Hlen' & _).
    split; [|done].
    pose proof (substring_middle pre m rest') as Hmid.
    rewrite Hlen, Hlen' in Hmid. by symmetry.
  - unfold search_LA.
    destruct (match_classes [is_upper; is_upper; is_upper; is_upper; is_upper] series)
      as [[pre rest]|] eqn:Hpre; [|done].
    destruct (match_classes _ rest) as [[m rest']|] eqn:Hm; [|done].
    intros [= <-].
    apply match_classes_inv in Hpre as (-> & Hlen & _).
    apply match_classes_inv in Hm as (-> & Hlen' & Hall).
    split; [|split; [done|]].
    + pose proof (substring_middle pre m rest') as Hmid.
      rewrite Hlen, Hlen' in Hmid. by symmetry.
    + eapply all_digits; [|exact Hall]. repeat constructor.
  - unfold search_OE.
    destruct (match_classes _ (skip_upper series)) as [[m rest]|] eqn:Hm; [|done].
    intros [= <-].
    apply match_classes_inv in Hm as (Hskip & Hlen & Hall).
    split; [|split; [done|]].
    + destruct (skip_upper_suffix series) as [letters Hs].
      exists letters, rest. split; [|done]. by rewrite <- Hskip.
    + eapply all_digits; [|exact Hall]. repeat constructor.
Qed.

(** The two tests of [get_location] exclude each other. *)
Lemma class_not_OE (s : string) :
  match_EN_LA_class s = true → match_OE s = false.
Proof.
  destruct s as [|c s]; [done|]. simpl. intros Hclass.
  destruct (decide (c = "O"%char)) as [->|HO]; [done|].
  destruct c as [[] [] [] [] [] [] [] []]; try done.
Qed.

(** ** The constructor and the files *)

Section FurtherClassProofs.
Context `{PandasOps}.
Variable qcew_area_codes_df : gmap string string.
Variable oes_area_codes_df : gmap string string.
Variable bls_api :
  option (list string) → option string → option string → result (list bls_series).

(** What holds of every object the constructor returns: it was built from a
    fetch (no raw data given, a non-empty list of identifiers), it keeps
    the arguments and what the service answered, its table is the one
    [_construct_df] builds from that answer and its locations are those
    [get_location] gives for its identifiers. *)
Theorem init_returns (fs : gmap string (list bls_series))
    (ids : option (list string)) (start end_ json_file : option string)
    (raw : option (list bls_series)) (self : BlsData) :
  __init__ qcew_area_codes_df oes_area_codes_df bls_api fs ids start end_
    json_file raw = OK self →
  truthy raw = false ∧ truthy ids = true ∧
  series_id_list self = ids ∧ start_year self = start ∧ end_year self = end_ ∧
  bls_api ids start end_ = OK (raw_data self) ∧
  _construct_df (raw_data self) = OK (df self) ∧
  get_location qcew_area_codes_df oes_area_codes_df (series_id_list self)
  = OK (locations self).
Proof.
  unfold __init__. intros Hinit.
  destruct (negb (truthy raw) && truthy ids) eqn:Hcond; [|done].
  apply andb_prop in Hcond as [Hraw Hids]. apply negb_true_iff in Hraw.
  invert_bind Hinit. invert_bind Hinit. invert_bind Hinit.
  injection Hinit as <-. done.
Qed.

(** An identifier that enters the [EN|LA] branch without being EN or LA, at
    the head of the list: the data are fetched and the table is built, and
    the constructor still raises [UnboundLocalError]; no object exists for
    such a list. *)
Theorem init_unbound_area_code (fs : gmap string (list bls_series))
    (series : string) (others : list string) (start end_ json_file : option string)
    (raw : option (list bls_series)) (fetched : list bls_series) (t : IndexedFrame) :
  truthy raw = false →
  match_EN_LA_class (prefix2 series) = true →
  prefix2 series ≠ "EN" → prefix2 series ≠ "LA" →
  bls_api (Some (series :: others)) start end_ = OK fetched →
  _construct_df fetched = OK t →
  __init__ qcew_area_codes_df oes_area_codes_df bls_api fs
    (Some (series :: others)) start end_ json_file raw
  = Raise UnboundLocalError.
Proof.
  intros Hraw Hclass HEN HLA Hapi Ht. unfold __init__, _request_bls_data.
  rewrite Hraw. simpl. rewrite Hapi. simpl. rewrite Ht. simpl.
  rewrite locate_leftover; [done..|].
  by apply class_not_OE.
Qed.

(** Writing and reading do not meet: what [write_to_bls_file] does is the
    same whatever data and file name it is given, and [_read_bls_file]
    returns after it what it returned before. *)
Theorem read_after_write (fs : gmap string (list bls_series)) (self : BlsData)
    (data1 data2 : list bls_series) (name1 name2 : string) :
  write_to_bls_file self data1 name1 fs = write_to_bls_file self data2 name2 fs ∧
  _read_bls_file (A:=unit) (write_to_bls_file self data1 name1 fs) []
  = _read_bls_file (A:=unit) fs [].
Proof.
  split; [done|]. destruct self. simpl. by rewrite lookup_insert_ne.
Qed.

End FurtherClassProofs.

(** ** [create_graph] *)

Section FurtherGraphProofs.
Context `{PandasOps} {figure : Type}.
Variable plot : plot_kind → string → string → Table → figure.

Lemma elem_of_map_keys (m : gmap string string) (k : string) :
  k ∈ (map_to_list m).*1 ↔ is_Some (m !! k).
Proof.
  rewrite list_elem_of_fmap. split.
  - intros ([k' v] & -> & Hkv). apply elem_of_map_to_list in Hkv. simpl. eauto.
  - intros [v Hv]. exists (k, v). split; [done|]. by apply elem_of_map_to_list.
Qed.

Lemma rename_columns_OK (mapping : gmap string string) (t : Table) :
  (∀ k, is_Some (mapping !! k) → Str k ∈ t_columns t) →
  rename_columns mapping t =
  OK (mkTable (t_index t)
        ((λ c, match c with
               | Str label => Str (default label (mapping !! label))
               | _ => c
               end) <$> t_columns t)
        (t_data t)).
Proof.
  intros Hkeys. unfold rename_columns. rewrite filter_none; [done|].
  intros k Hk%elem_of_map_keys Hnot. by apply Hnot, Hkeys.
Qed.

Lemma rename_columns_Raise (mapping : gmap string string) (t : Table) (k : string) :
  is_Some (mapping !! k) → Str k ∉ t_columns t →
  ∃ k', rename_columns mapping t = Raise (KeyError k') ∧
        is_Some (mapping !! k') ∧ Str k' ∉ t_columns t.
Proof.
  intros Hk Hnot. unfold rename_columns.
  assert (Hin : k ∈ filter (λ k, Str k ∉ t_columns t) (map_to_list mapping).*1).
  { apply list_elem_of_filter. split; [done|]. by apply elem_of_map_keys. }
  destruct (filter _ _) as [|k' ks] eqn:Hf; [by apply elem_of_nil in Hin|].
  exists k'. split; [done|].
  assert (Hk' : k' ∈ filter (λ k, Str k ∉ t_columns t) (map_to_list mapping).*1)
    by (rewrite Hf; by left).
  apply list_elem_of_filter in Hk' as [Hn Hm]. split; [|done].
  by apply elem_of_map_keys.
Qed.

Lemma elem_of_table_columns (t : IndexedFrame) (k : string) :
  Str k ∈ t_columns (to_table t) ↔ k ∈ icolumns t.
Proof.
  simpl. rewrite list_elem_of_fmap. split.
  - by intros (c & [= ->] & Hc).
  - intros Hk. eauto.
Qed.

(** Custom names of a type other than [dict]: with [clean_names] set and a
    value that counts as true, [create_graph] raises [TypeError], and no
    column is renamed before, whatever the locations and the kind of graph
    asked for. *)
Theorem create_graph_custom_type_error (self : BlsData) (title graph_type : string)
    (custom : pyobj) (transpose : bool) :
  py_truth custom = true →
  (∀ d, custom ≠ PyDict d) →
  create_graph plot self title graph_type true custom transpose = Raise TypeError.
Proof.
  intros Htruth Hnot. unfold create_graph. rewrite Htruth. simpl.
  destruct custom as [|d|truth]; [done| |done]. by destruct (Hnot d).
Qed.

(** [custom_column_names] is looked at only when [clean_names] is set and
    the value counts as true: in every other call (an empty dictionary, an
    empty list, any value with [clean_names] off) the result is that of the
    call with [None], and with [clean_names] off no step before the
    plotting call raises: the call reaches its end. *)
Theorem create_graph_custom_ignored (self : BlsData) (title graph_type : string)
    (clean_names : bool) (custom : pyobj) (transpose : bool) :
  clean_names = false ∨ py_truth custom = false →
  create_graph plot self title graph_type clean_names custom transpose
  = create_graph plot self title graph_type clean_names PyNone transpose ∧
  (clean_names = false →
   ∃ fig, create_graph plot self title graph_type clean_names custom transpose
          = OK fig).
Proof.
  intros Hcase. unfold create_graph. split.
  - destruct Hcase as [-> | Hfalse]; [done|]. rewrite Hfalse. simpl.
    by rewrite !andb_false_r.
  - intros ->. simpl. repeat case_decide; eauto.
Qed.

(** A kind of graph other than [line] and [bar]: the checks and the
    renaming run as for a line graph, with the same exceptions, and the
    call returns [None]. *)
Theorem create_graph_unknown_type (self : BlsData) (title graph_type : string)
    (clean_names : bool) (custom : pyobj) (transpose : bool) :
  graph_type ≠ "line" → graph_type ≠ "bar" →
  create_graph plot self title graph_type clean_names custom transpose
  = (λ _, None) <$> create_graph plot self title "line" clean_names custom transpose.
Proof.
  intros Hline Hbar. unfold create_graph.
  destruct (if clean_names && negb (py_truth custom) then _ else _) as [t1|e]; [|done].
  simpl.
  destruct (if clean_names && py_truth custom then _ else _) as [t2|e]; [|done].
  simpl. by rewrite !decide_False.
Qed.

(** With [clean_names] set and no custom names, a location recorded for an
    identifier that labels no column of the table makes the renaming, and
    the call, raise [KeyError] on such an identifier. *)
Theorem create_graph_missing_label (self : BlsData) (title graph_type : string)
    (custom : pyobj) (transpose : bool) (series : string) :
  py_truth custom = false →
  is_Some (locations self !! series) →
  series ∉ icolumns (df self) →
  ∃ k, create_graph plot self title graph_type true custom transpose
       = Raise (KeyError k) ∧
       is_Some (locations self !! k) ∧ k ∉ icolumns (df self).
Proof.
  intros Hfalse Hloc Hcol. unfold create_graph. rewrite Hfalse. simpl.
  destruct (rename_columns_Raise (locations self) (to_table (df self)) series)
    as (k & -> & Hk & Hnot); [done|by rewrite elem_of_table_columns|].
  exists k. split; [done|]. split; [done|]. by rewrite <- elem_of_table_columns.
Qed.

(** A non-empty dictionary of custom names whose keys all label columns: the
    frame that is plotted has the index and the data of the table of the
    object, its columns carry the custom name where the dictionary has one
    and their own label elsewhere; the locations are not consulted. *)
Theorem create_graph_custom_labels (self : BlsData) (title : string)
    (d : gmap string string) :
  d ≠ ∅ →
  (∀ k, is_Some (d !! k) → k ∈ icolumns (df self)) →
  ∃ frame,
    create_graph plot self title "line" true (PyDict d) false
    = OK (Some (plot Line title "simple_white" frame)) ∧
    create_graph plot self title "bar" true (PyDict d) false
    = OK (Some (plot Bar title "simple_white" frame)) ∧
    t_index frame = index (df self) ∧
    t_data frame = t_data (to_table (df self)) ∧
    t_columns frame = (λ c, Str (default c (d !! c))) <$> icolumns (df self).
Proof.
  intros Hne Hkeys. unfold create_graph. simpl.
  rewrite bool_decide_eq_false_2 by done. simpl.
  rewrite rename_columns_OK.
  2: { intros k Hk. apply elem_of_table_columns. by apply Hkeys. }
  simpl. eexists. split; [reflexivity|]. split; [reflexivity|].
  split; [done|]. split; [done|]. simpl. by rewrite <- list_fmap_compose.
Qed.

End FurtherGraphProofs.

(** * Concrete runs, on the reference instance *)

(** A decidable proposition that evaluates to true. *)
Ltac by_evaluation :=
  cbv beta;
  lazymatch goal with
  | |- ?P => apply (bool_decide_unpack P); exact I
  end.

(** [Forall P l] for an explicit list [l], element by element. *)
Ltac for_each tac :=
  repeat first [apply Forall_nil_2 | apply Forall_cons_2; [tac|]].



(** C2 fails as stated: the period code Q10 loses its zero although no zero
    leads its suffix, so that the string parsed is [2020-Q1], where dropping
    a leading zero alone would leave [2020-Q10]; the row is dated to the
    first quarter of 2020. *)
Lemma quarterly_strips_every_zero :
  (date_column <$> quarterly_strings (one_row_table 2020 "Q10")) = OK [Str "2020-Q1"] ∧
  (λ r, Str (H:=ref_ops) (spec_quarter_string r)) <$> rows (one_row_table 2020 "Q10")
  = [Str "2020-Q10"] ∧
  (index <$> organize_df (one_row_table 2020 "Q10")) = OK [Time (mkTs 2020 1 1)].
Proof. split; [|split]; reflexivity. Qed.

Lemma organize_df_quarterly_witness :
  ∃ t, organize_df (one_row_table 2020 "Q01") = OK t ∧
       index t ≡ₚ Time <$> [mkTs 2020 1 1].
Proof.
  destruct (organize_df_quarterly (H:=ref_ops) (one_row_table 2020 "Q01")
              (single_row (Num (2020 : @num ref_ops)) "Q01"
                 (<["ENU0401910010" := Num (5 : @num ref_ops)]> ∅))
              [] "01") as (_ & Hreturns & _).
  - reflexivity.
  - by_evaluation.
  - reflexivity.
  - apply (Hreturns [mkTs 2020 1 1]).
    + by_evaluation.
    + repeat constructor.
Defined.

(** The fourth quarter: the code Q04 of 2020 is dated to October 1st. *)
Example organize_df_Q04 :
  (index <$> organize_df (one_row_table 2020 "Q04")) = OK [Time (mkTs 2020 10 1)].
Proof. reflexivity. Qed.

Lemma organize_df_monthly_witness :
  ∃ t, organize_df (one_row_table 2021 "M03") = OK t ∧
       index t ≡ₚ Time <$> [mkTs 2021 3 1].
Proof.
  destruct (organize_df_monthly (H:=ref_ops) (one_row_table 2021 "M03")
              (single_row (Num (2021 : @num ref_ops)) "M03"
                 (<["ENU0401910010" := Num (5 : @num ref_ops)]> ∅))
              [] "03") as (_ & Hreturns & _).
  - reflexivity.
  - by_evaluation.
  - reflexivity.
  - apply (Hreturns [mkTs 2021 3 1] "0"%char "3").
    + by_evaluation.
    + reflexivity.
    + discriminate.
    + repeat constructor.
Defined.


Lemma get_location_unknown_code_witness :
  get_location qcew_sample ∅
    (Some ["ENU0400010010"; "ENU0401910010"; "OEUM001018000000000000001"])
  = Raise (KeyError "04019").
Proof.
  apply (get_location_unknown_code qcew_sample ∅
           ["ENU0400010010"] ["OEUM001018000000000000001"]
           (mkLoc (Some "04000")
              (<["ENU0400010010" := "Arizona -- Statewide"]> ∅))
           "ENU0401910010" "04019").
  - reflexivity.
  - left. split; [reflexivity|]. split; reflexivity.
Defined.

(** C10 fails as stated: an empty list given as [raw_data], with a list of
    identifiers, makes the constructor fetch the data and return an
    object. *)
Lemma init_empty_raw_data_fetches :
  (λ self, (seriesID <$> raw_data self, locations self)) <$>
    __init__ qcew_sample ∅ sample_api ∅ (Some ["CUUR0000SA0"; "WPUFD4"])
      (Some "2020") (Some "2020") None (Some [])
  = OK (["CUUR0000SA0"; "WPUFD4"], ∅).
Proof. vm_compute. reflexivity. Qed.

Lemma init_offline_raises_witness :
  __init__ qcew_sample ∅ sample_api ∅ (Some ["CUUR0000SA0"])
    None None None (Some [cpi_series]) = Raise TypeError ∧
  __init__ qcew_sample ∅ sample_api ∅ None
    None None (Some "raw_data3_3.json") None = Raise TypeError.
Proof.
  split.
  - apply (init_offline_raises (H:=ref_ops)). left. reflexivity.
  - apply (init_offline_raises (H:=ref_ops)). right. reflexivity.
Defined.

(** ** Runs of the further properties *)

(** The table of the two sample series is built. *)
Lemma sample_table_built : ∃ t, _construct_df [cpi_series; ppi_series] = OK t.
Proof.
  destruct (_construct_df [cpi_series; ppi_series]) as [t|e] eqn:Ht; [by exists t|].
  exfalso.
  assert (Hok : (λ _, tt) <$> _construct_df [cpi_series; ppi_series] = OK tt)
    by (vm_compute; reflexivity).
  rewrite Ht in Hok. discriminate.
Qed.

Lemma organize_df_keeps_values_witness :
  ∃ t, organize_df annual_table = OK t ∧
       icolumns t = value_columns (columns annual_table) ∧
       snd <$> irows t ≡ₚ value_part <$> rows annual_table ∧
       List.length (irows t) = List.length (rows annual_table).
Proof.
  eexists. split; [reflexivity|].
  apply (organize_df_keeps_values (H:=ref_ops) annual_table). reflexivity.
Defined.

Lemma organize_df_unknown_granularity_witness :
  organize_df (one_row_table 2020 "S01") = Raise (KeyError "date").
Proof.
  apply (organize_df_unknown_granularity (H:=ref_ops) (one_row_table 2020 "S01") "S"%char).
  - reflexivity.
  - discriminate.
  - discriminate.
  - discriminate.
  - by_evaluation.
Defined.

Lemma organize_df_annual_witness :
  ∃ t, organize_df annual_table = OK t ∧ index_name t = "date" ∧
       index t ≡ₚ (λ r, cell_at r "year") <$> rows annual_table.
Proof.
  destruct (organize_df_annual (H:=ref_ops) annual_table) as [Hreturns _].
  - reflexivity.
  - by_evaluation.
  - by_evaluation.
  - apply Hreturns. reflexivity.
Defined.

Lemma organize_df_missing_year_witness :
  organize_df no_year_table = Raise (KeyError "year").
Proof.
  apply (organize_df_missing_year (H:=ref_ops) no_year_table "Q"%char).
  - reflexivity.
  - left. reflexivity.
  - by_evaluation.
Defined.

Lemma organize_df_first_row_errors_witness :
  organize_df (one_row_table 2020 "") = Raise IndexError.
Proof.
  destruct (organize_df_first_row_errors (H:=ref_ops) (one_row_table 2020 "")
              (single_row (Num (2020 : @num ref_ops)) ""
                 (<["ENU0401910010" := Num (5 : @num ref_ops)]> ∅))
              []) as (_ & Hempty).
  - reflexivity.
  - apply Hempty; [by_evaluation|reflexivity].
Defined.

Lemma organize_df_unparsable_quarter_witness :
  organize_df (one_row_table 2020 "Q05") = Raise ValueError.
Proof.
  apply (organize_df_unparsable_quarter (H:=ref_ops) (one_row_table 2020 "Q05")
           (single_row (Num (2020 : @num ref_ops)) "Q05"
              (<["ENU0401910010" := Num (5 : @num ref_ops)]> ∅))
           [] "05").
  - reflexivity.
  - by_evaluation.
  - by_evaluation.
  - reflexivity.
  - apply Exists_cons_hd. reflexivity.
Defined.

Lemma organize_df_unparsable_month_witness :
  organize_df (one_row_table 2020 "M13") = Raise ValueError.
Proof.
  apply (organize_df_unparsable_month (H:=ref_ops) (one_row_table 2020 "M13")
           (single_row (Num (2020 : @num ref_ops)) "M13"
              (<["ENU0401910010" := Num (5 : @num ref_ops)]> ∅))
           [] "13").
  - reflexivity.
  - by_evaluation.
  - by_evaluation.
  - reflexivity.
  - apply Exists_cons_hd. reflexivity.
Defined.

Lemma construct_df_empty_series_witness :
  merged_frame [cpi_series; empty_series; ppi_series] = Raise (KeyError "year") ∧
  _construct_df [cpi_series; empty_series; ppi_series] = Raise (KeyError "year").
Proof.
  eapply (construct_df_empty_series (H:=ref_ops) [cpi_series] [ppi_series] empty_series).
  - reflexivity.
  - reflexivity.
Defined.

Lemma construct_df_value_error_witness :
  merged_frame [dash_series; ppi_series] = Raise ValueError ∧
  _construct_df [dash_series; ppi_series] = Raise ValueError.
Proof.
  eapply (construct_df_value_error (H:=ref_ops) [] [ppi_series] dash_series).
  - reflexivity.
  - discriminate.
  - for_each ltac:(intros t; discriminate).
  - left. apply Exists_cons_hd. exists "-". split; reflexivity.
Defined.

Lemma construct_df_shape_witness :
  ∃ t, _construct_df [cpi_series; ppi_series] = OK t ∧
       List.length (irows t)
       = List.length (remove_dups (all_keys [cpi_series; ppi_series])) ∧
       icolumns t = value_columns (seriesID <$> [cpi_series; ppi_series]).
Proof.
  destruct sample_table_built as [t Ht]. exists t. split; [exact Ht|].
  apply (construct_df_shape (H:=ref_ops) [cpi_series; ppi_series] t).
  - for_each discriminate.
  - for_each ltac:(for_each ltac:(eexists; reflexivity)).
  - for_each by_evaluation.
  - by_evaluation.
  - for_each by_evaluation.
  - exact Ht.
Defined.

Lemma get_location_resolves_witness :
  ∃ m, get_location qcew_sample ∅ (Some ["ENU0400010010"; "CUUR0000SA0"]) = OK m ∧
       ∀ s, m !! s = if decide (s ∈ ["ENU0400010010"; "CUUR0000SA0"])
                     then resolve qcew_sample ∅ s
                     else None.
Proof.
  apply (get_location_resolves qcew_sample ∅ ["ENU0400010010"; "CUUR0000SA0"]).
  apply Forall_cons_2; [|apply Forall_cons_2; [|apply Forall_nil_2] ].
  - right. eexists. reflexivity.
  - left. split; reflexivity.
Defined.

Lemma get_location_no_match_witness :
  get_location qcew_sample ∅ (Some ["ENU0400010010"; "ENU04"; "CUUR0000SA0"])
  = Raise AttributeError.
Proof.
  apply (get_location_no_match qcew_sample ∅
           ["ENU0400010010"] ["CUUR0000SA0"]
           (mkLoc (Some "04000")
              (<["ENU0400010010" := "Arizona -- Statewide"]> ∅))
           "ENU04").
  - reflexivity.
  - left. split; reflexivity.
Defined.

Lemma get_location_entries_witness :
  "ENU0400010010" ∈ ["ENU0400010010"; "CUUR0000SA0"] ∧
  ∃ code, qcew_sample !! code = Some "Arizona -- Statewide" ∨
          (∅ : gmap string string) !! code = Some "Arizona -- Statewide".
Proof.
  apply (get_location_entries qcew_sample ∅ ["ENU0400010010"; "CUUR0000SA0"]
           (<["ENU0400010010" := "Arizona -- Statewide"]> ∅)
           "ENU0400010010" "Arizona -- Statewide").
  - reflexivity.
  - reflexivity.
Defined.

Lemma search_positions_witness :
  "04000" = substring 3 5 "ENU0400010010" ∧ String.length "04000" = 5%nat.
Proof. apply (proj1 (search_positions "ENU0400010010" "04000")). reflexivity. Defined.

Lemma init_returns_witness :
  ∃ self,
    __init__ qcew_sample ∅ sample_api ∅ (Some ["CUUR0000SA0"; "WPUFD4"])
      (Some "2020") (Some "2021") None None = OK self ∧
    truthy (None : option (list (@bls_series ref_ops))) = false ∧
    truthy (Some ["CUUR0000SA0"; "WPUFD4"]) = true ∧
    series_id_list self = Some ["CUUR0000SA0"; "WPUFD4"] ∧
    start_year self = Some "2020" ∧ end_year self = Some "2021" ∧
    sample_api (Some ["CUUR0000SA0"; "WPUFD4"]) (Some "2020") (Some "2021")
    = OK (raw_data self) ∧
    _construct_df (raw_data self) = OK (df self) ∧
    get_location qcew_sample ∅ (series_id_list self) = OK (locations self).
Proof.
  destruct (__init__ qcew_sample ∅ sample_api ∅ (Some ["CUUR0000SA0"; "WPUFD4"])
              (Some "2020") (Some "2021") None None) as [self|e] eqn:Hinit.
  - exists self. split; [reflexivity|].
    exact (init_returns (H:=ref_ops) qcew_sample ∅ sample_api ∅
             (Some ["CUUR0000SA0"; "WPUFD4"]) (Some "2020") (Some "2021") None None
             self Hinit).
  - exfalso.
    assert (Hok : (λ _, tt) <$>
                    __init__ qcew_sample ∅ sample_api ∅ (Some ["CUUR0000SA0"; "WPUFD4"])
                      (Some "2020") (Some "2021") None None = OK tt)
      by (vm_compute; reflexivity).
    rewrite Hinit in Hok. discriminate.
Defined.

Lemma init_unbound_area_code_witness :
  __init__ qcew_sample ∅ sample_api ∅ (Some ["LNS14000000"; "CUUR0000SA0"])
    (Some "2020") (Some "2020") None None
  = Raise UnboundLocalError.
Proof.
  destruct sample_table_built as [t Ht].
  apply (init_unbound_area_code (H:=ref_ops) qcew_sample ∅ sample_api ∅
           "LNS14000000" ["CUUR0000SA0"] (Some "2020") (Some "2020") None None
           [cpi_series; ppi_series] t).
  - reflexivity.
  - reflexivity.
  - discriminate.
  - discriminate.
  - reflexivity.
  - exact Ht.
Defined.

Lemma create_graph_custom_type_error_witness :
  create_graph sample_plot sample_object "Prices" "line" true (PyOther true) false
  = Raise TypeError.
Proof.
  apply (create_graph_custom_type_error (H:=ref_ops) sample_plot).
  - reflexivity.
  - intros d. discriminate.
Defined.

Lemma create_graph_custom_ignored_witness :
  create_graph sample_plot sample_object "Prices" "bar" false (PyOther true) true
  = create_graph sample_plot sample_object "Prices" "bar" false PyNone true ∧
  (false = false →
   ∃ fig, create_graph sample_plot sample_object "Prices" "bar" false (PyOther true) true
          = OK fig).
Proof.
  apply (create_graph_custom_ignored (H:=ref_ops) sample_plot). left. reflexivity.
Defined.

Lemma create_graph_unknown_type_witness :
  create_graph sample_plot sample_object "Prices" "pie" false PyNone false
  = (λ _, None) <$>
      create_graph sample_plot sample_object "Prices" "line" false PyNone false.
Proof.
  apply (create_graph_unknown_type (H:=ref_ops) sample_plot); discriminate.
Defined.

Lemma create_graph_missing_label_witness :
  ∃ k, create_graph sample_plot sample_object "Prices" "line" true PyNone false
       = Raise (KeyError k) ∧
       is_Some (locations sample_object !! k) ∧ k ∉ icolumns (df sample_object).
Proof.
  apply (create_graph_missing_label (H:=ref_ops) sample_plot sample_object
           "Prices" "line" PyNone false "ENU0400010010").
  - reflexivity.
  - eexists. reflexivity.
  - by_evaluation.
Defined.

Lemma create_graph_custom_labels_witness :
  ∃ frame,
    create_graph sample_plot sample_object "Prices" "line" true
      (PyDict (<["CUUR0000SA0" := "Consumer prices"]> ∅)) false
    = OK (Some (sample_plot Line "Prices" "simple_white" frame)) ∧
    create_graph sample_plot sample_object "Prices" "bar" true
      (PyDict (<["CUUR0000SA0" := "Consumer prices"]> ∅)) false
    = OK (Some (sample_plot Bar "Prices" "simple_white" frame)) ∧
    t_index frame = index (df sample_object) ∧
    t_data frame = t_data (to_table (df sample_object)) ∧
    t_columns frame
    = (λ c, Str (default c ((<["CUUR0000SA0" := "Consumer prices"]> ∅ : gmap string string) !! c)))
        <$> icolumns (df sample_object).
Proof.
  apply (create_graph_custom_labels (H:=ref_ops) sample_plot sample_object "Prices"
           (<["CUUR0000SA0" := "Consumer prices"]> ∅)).
  - by_evaluation.
  - intros k [v Hv]. apply lookup_insert_Some in Hv as [[<- _]|[_ Hv] ].
    + by_evaluation.
    + by rewrite lookup_empty in Hv.
Defined.
